(** * PDFNoodle MCP server: a shallow embedding of [src/index.ts]

    The development follows the source file top to bottom:
    - [callApi], the single helper that talks to the upstream HTTP API;
    - [pollForPdfCompletion], the sleep-then-poll loop with capped back-off;
    - the five tool handlers registered by [createMcpServer];
    - the session registry [transports] and the [POST /mcp] route.

    JavaScript builtins the program calls but does not define ([JSON.parse],
    [JSON.stringify], the text of engine-made error messages, number
    formatting) are an interface, [Runtime]; the upstream API is an oracle
    answering the n-th [fetch] of a run.  Every effect the program performs
    (a timer, a [fetch]) is logged in a trace, so that "how many status
    queries" and "which request" are statements about that trace. *)

From Stdlib Require Import QArith Qminmax ZArith DecimalString Lia List Ascii.
From stdpp Require Import base strings gmap.
Import ListNotations.
Open Scope string_scope.

(** ** Strings and numbers *)

(** The line feed of the template literals ([\n]). *)
Definition nl : string := String (Ascii.ascii_of_nat 10) EmptyString.

(** A JavaScript string is truthy unless it is empty. *)
Definition truthy_string (s : string) : bool :=
  match s with EmptyString => false | String _ _ => true end.

(** [`${n}`] for an integer: its decimal numeral. *)
Definition Z_toString (n : Z) : string := NilZero.string_of_int (Z.to_int n).
Definition nat_toString (n : nat) : string := Z_toString (Z.of_nat n).

(** The numbers the poll loop computes with.  They are kept as reduced
    rationals: on the orbit of the default [initialDelayMs] every value is an
    integer below 2^53, where IEEE double arithmetic is exact, so the
    rational product and minimum are the ones the engine computes. *)
Definition number := Q.

Definition number_mul (a b : number) : number := Qred (a * b).

Definition Math_min (a b : number) : number := if Qle_bool a b then a else b.

(** ** JSON values *)

#[local] Set Warnings "-register-all".

Inductive json : Type :=
| JNull
| JBool (b : bool)
| JNumber (lexeme : string)
| JString (s : string)
| JArray (items : list json)
| JObject (members : list (string * json)).

(** A JavaScript value as the handlers see one: [None] is [undefined]. *)
Definition js_value := option json.

(** Own-property read on an object literal or a parsed object: when a key is
    repeated the last member wins, as it does in [JSON.parse]. *)
Fixpoint obj_get (k : string) (members : list (string * json)) : js_value :=
  match members with
  | [] => None
  | (k', v) :: rest =>
      match obj_get k rest with
      | Some v' => Some v'
      | None => if String.eqb k' k then Some v else None
      end
  end.

(** ** What the program takes from the JavaScript runtime and its process *)

Class Runtime := {
  (** [JSON.parse(text)]; [None] when it throws a [SyntaxError]. *)
  JSON_parse : string -> option json;
  (** the message of that [SyntaxError] *)
  SyntaxError_message : string -> string;
  (** [JSON.stringify(v, null, space)] *)
  JSON_stringify : json -> nat -> string;
  (** the message of the [TypeError] raised by reading property [k] of [null] *)
  TypeError_message : string -> string;
  (** [String(n)] and [Boolean(n)] for a number, given by its lexeme *)
  Number_toString : string -> string;
  Number_truthy : string -> bool;
  (** [process.env.PDFNOODLE_API_BASE] *)
  env_PDFNOODLE_API_BASE : option string
}.

(** ** Thrown values and results *)

Inductive error_class := ErrorC | TypeErrorC | SyntaxErrorC.

Inductive thrown : Type :=
| ErrorObject (cls : error_class) (message : string)
| ThrownValue (v : js_value).

Definition Error (message : string) : thrown := ErrorObject ErrorC message.

Inductive result (A : Type) : Type :=
| Ok (a : A)
| Throw (t : thrown).
Arguments Ok {A} a.
Arguments Throw {A} t.

(** ** The upstream API and the effect trace *)

Inductive http_method := GET | POST.

Record request := {
  req_url : string;
  req_method : http_method;
  req_headers : list (string * string);
  req_body : option string
}.

Inductive body_read :=
| BodyText (text : string)
| BodyFails (reason : thrown).

Inductive fetch_outcome :=
| Rejects (reason : thrown)
| Responds (status : Z) (body : body_read).

(** The upstream answers the n-th [fetch] of the run, knowing the request. *)
Definition upstream := nat -> request -> fetch_outcome.

Inductive event :=
| Sleep (ms : number)
| Fetch (r : request).

Record world := {
  served : nat;
  trace : list event
}.

Definition initial_world : world := {| served := 0; trace := [] |}.

Definition log (e : event) (w : world) : world :=
  {| served := served w; trace := (trace w ++ [e])%list |}.

(** ** The monad of an [async] function body: state and exceptions *)

Definition M (A : Type) : Type := world -> result A * world.

Definition ret {A} (a : A) : M A := fun w => (Ok a, w).

Definition throw {A} (t : thrown) : M A := fun w => (Throw t, w).

Definition bind {A B} (m : M A) (k : A -> M B) : M B :=
  fun w => match m w with
           | (Ok a, w') => k a w'
           | (Throw t, w') => (Throw t, w')
           end.

Definition try_catch {A} (body : M A) (handler : thrown -> M A) : M A :=
  fun w => match body w with
           | (Ok a, w') => (Ok a, w')
           | (Throw t, w') => handler t w'
           end.

Declare Scope async_scope.
Delimit Scope async_scope with async.
Notation "x <- m ;; k" := (bind m (fun x => k))
  (at level 100, m at next level, right associativity) : async_scope.
Notation "m ;;; k" := (bind m (fun _ => k))
  (at level 100, right associativity) : async_scope.
Open Scope async_scope.

Definition lift {A} (r : result A) : M A := fun w => (r, w).

(** ** Tool results and tool inputs *)

(** What a handler returns, [{content: [{type: "text", text}], isError?}]:
    the one text item and the flag, [false] when the key is absent. *)
Record tool_result := { text : string; isError : bool }.

(** The inputs, as the [inputSchema] of each tool declares them; an optional
    key that is absent is [None]. *)

Record list_templates_args := {
  lt_apiKey : string;
  lt_limit : option number
}.

Record get_template_variables_args := {
  tv_apiKey : string;
  tv_templateId : string
}.

Record check_pdf_status_args := {
  cs_apiKey : string;
  cs_requestId : string
}.

Record html_to_pdf_args := {
  hp_apiKey : string;
  hp_html : string;
  hp_pdfParams : option string;
  hp_convertToImage : option bool;
  hp_metadata : option string;
  hp_hasCover : option bool;
  hp_waitForCompletion : option bool
}.

Record generate_pdf_args := {
  gp_apiKey : string;
  gp_templateId : string;
  gp_data : string;
  gp_waitForCompletion : option bool
}.

Section Program.

Context `{RT : Runtime}.
Variable api : upstream.

(** ** Conversions: [String(v)], truthiness, property reads *)

Fixpoint ToString (j : json) : string :=
  match j with
  | JNull => "null"
  | JBool true => "true"
  | JBool false => "false"
  | JNumber n => Number_toString n
  | JString s => s
  | JArray items =>
      (fix join (l : list json) : string :=
         match l with
         | [] => ""
         | x :: rest =>
             let sx := match x with JNull => "" | _ => ToString x end in
             match rest with
             | [] => sx
             | _ :: _ => sx +:+ "," +:+ join rest
             end
         end) items
  | JObject _ => "[object Object]"
  end.

Definition String_of (v : js_value) : string :=
  match v with
  | None => "undefined"
  | Some j => ToString j
  end.

Definition truthy (v : js_value) : bool :=
  match v with
  | None => false
  | Some JNull => false
  | Some (JBool b) => b
  | Some (JNumber n) => Number_truthy n
  | Some (JString s) => truthy_string s
  | Some (JArray _) => true
  | Some (JObject _) => true
  end.

(** [v === "lit"] *)
Definition is_string (v : js_value) (lit : string) : bool :=
  match v with
  | Some (JString s) => String.eqb s lit
  | _ => false
  end.

(** [data.k] for the property names this program reads ([renderStatus],
    [signedUrl], [metadata], [executionTime], [fileSize], [requestId]):
    reading from [null] throws, a parsed object yields its member, and any
    other JSON value has no such property. *)
Definition get_prop (data : json) (k : string) : result js_value :=
  match data with
  | JNull => Throw (ErrorObject TypeErrorC (TypeError_message k))
  | JObject members => Ok (obj_get k members)
  | _ => Ok None
  end.

(** [v?.k] *)
Definition get_prop_opt (v : js_value) (k : string) : result js_value :=
  match v with
  | None => Ok None
  | Some JNull => Ok None
  | Some j => get_prop j k
  end.

(** [v || "N/A"], then interpolated *)
Definition or_NA (v : js_value) : string :=
  if truthy v then String_of v else "N/A".

(** [err instanceof Error ? err.message : String(err)] *)
Definition catch_message (t : thrown) : string :=
  match t with
  | ErrorObject _ m => m
  | ThrownValue v => String_of v
  end.

(** ** Configuration *)

Definition PDFNOODLE_API_BASE : string :=
  match env_PDFNOODLE_API_BASE with
  | Some s => if truthy_string s then s else "https://api.pdfnoodle.com/v1/"
  | None => "https://api.pdfnoodle.com/v1/"
  end.

(** ** Primitive effects *)

(** [await new Promise((resolve) => setTimeout(resolve, delay))] *)
Definition setTimeout (delay : number) : M unit :=
  fun w => (Ok tt, log (Sleep delay) w).

(** [await fetch(url, {method, headers, body})] *)
Definition fetch (r : request) : M (Z * body_read) :=
  fun w =>
    let w' := {| served := S (served w); trace := (trace w ++ [Fetch r])%list |} in
    match api (served w) r with
    | Rejects reason => (Throw reason, w')
    | Responds status body => (Ok (status, body), w')
    end.

(** [await response.text()] *)
Definition response_text (body : body_read) : M string :=
  match body with
  | BodyText text => ret text
  | BodyFails reason => throw reason
  end.

(** [await response.json()] *)
Definition response_json (body : body_read) : M json :=
  text <- response_text body ;;
  match JSON_parse text with
  | Some j => ret j
  | None => throw (ErrorObject SyntaxErrorC (SyntaxError_message text))
  end.

(** [response.ok] *)
Definition response_ok (status : Z) : bool :=
  (200 <=? status)%Z && (status <=? 299)%Z.

(** ** [callApi] *)

Definition api_headers (apiKey : string) : list (string * string) :=
  [ ("Authorization", "Bearer " +:+ apiKey);
    ("Content-Type", "application/json");
    ("Accept", "application/json") ].

Definition api_request (apiKey endpoint : string) (method : http_method)
    (body : option json) : request :=
  {| req_url := PDFNOODLE_API_BASE +:+ endpoint;
     req_method := method;
     req_headers := api_headers apiKey;
     req_body := match body with
                 | Some b => Some (JSON_stringify b 0)
                 | None => None
                 end |}.

Definition callApi (apiKey endpoint : string) (method : http_method)
    (body : option json) : M (Z * json) :=
  response <- fetch (api_request apiKey endpoint method body) ;;
  let '(status, resp) := response in
  if negb (response_ok status) && negb (status =? 202)%Z then
    errorText <- response_text resp ;;
    throw (Error ("PDFNoodle API Error (" +:+ Z_toString status +:+ "): " +:+ errorText))
  else
    data <- response_json resp ;;
    ret (status, data).

(** ** [pollForPdfCompletion] *)

Definition status_endpoint (requestId : string) : string :=
  "pdf/status/" +:+ requestId.

(** [Math.min(delay * 1.5, 10000)] *)
Definition next_delay (delay : number) : number :=
  Math_min (number_mul delay 1.5%Q) 10000%Q.

(** The loop [for (attempt = 1; attempt <= maxAttempts; attempt++)], by the
    number of attempts still to make; [maxAttempts] is only read again by the
    message after the loop. *)
Fixpoint poll_loop (apiKey requestId : string) (maxAttempts : nat)
    (remaining : nat) (delay : number) : M json :=
  match remaining with
  | O =>
      throw (Error ("PDF generation timed out after " +:+ nat_toString maxAttempts
                    +:+ " attempts for request " +:+ requestId))
  | S remaining' =>
      setTimeout delay ;;;
      response <- callApi apiKey (status_endpoint requestId) GET None ;;
      let data := snd response in
      renderStatus <- lift (get_prop data "renderStatus") ;;
      if is_string renderStatus "SUCCESS" then ret data
      else if is_string renderStatus "FAILED" then
        throw (Error ("PDF generation failed for request " +:+ requestId))
      else poll_loop apiKey requestId maxAttempts remaining' (next_delay delay)
  end.

Definition pollForPdfCompletion (apiKey requestId : string)
    (maxAttempts : nat) (initialDelayMs : number) : M json :=
  poll_loop apiKey requestId maxAttempts maxAttempts initialDelayMs.

Definition default_maxAttempts : nat := 20.
Definition default_initialDelayMs : number := 2000%Q.

(** ** Tool results *)

(** A result without and with [isError: true]. *)
Definition success (t : string) : tool_result := {| text := t; isError := false |}.
Definition failure (t : string) : tool_result := {| text := t; isError := true |}.

(** The three lines every "PDF ready" text ends with:
    [Download URL: ${d.signedUrl}\nExecution time: ${d.metadata?.executionTime
    || "N/A"}\nFile size: ${d.metadata?.fileSize || "N/A"}], read left to
    right. *)
Definition render_details (d : json) : result string :=
  match get_prop d "signedUrl" with
  | Throw t => Throw t
  | Ok signedUrl =>
      match get_prop d "metadata" with
      | Throw t => Throw t
      | Ok metadata =>
          match get_prop_opt metadata "executionTime" with
          | Throw t => Throw t
          | Ok executionTime =>
              match get_prop_opt metadata "fileSize" with
              | Throw t => Throw t
              | Ok fileSize =>
                  Ok ("Download URL: " +:+ String_of signedUrl +:+ nl
                      +:+ "Execution time: " +:+ or_NA executionTime +:+ nl
                      +:+ "File size: " +:+ or_NA fileSize)
              end
          end
      end
  end.

(** ** Tool 1: [list_templates] *)

Definition list_templates_body (args : list_templates_args) : M tool_result :=
  let apiKey := lt_apiKey args in
  response <- callApi apiKey "integration/templates" GET None ;;
  ret (success (JSON_stringify (snd response) 2)).

Definition list_templates (args : list_templates_args) : M tool_result :=
  try_catch (list_templates_body args)
    (fun err => ret (failure ("Error fetching templates: " +:+ catch_message err))).

(** ** Tool 2: [get_template_variables] *)

Definition get_template_variables_body (args : get_template_variables_args)
    : M tool_result :=
  let apiKey := tv_apiKey args in
  let templateId := tv_templateId args in
  response <- callApi apiKey ("integration/templates/" +:+ templateId +:+ "/variables")
                GET None ;;
  ret (success (JSON_stringify (snd response) 2)).

Definition get_template_variables (args : get_template_variables_args)
    : M tool_result :=
  try_catch (get_template_variables_body args)
    (fun err => ret (failure ("Error fetching template variables: "
                              +:+ catch_message err))).

(** ** Tool 3: [check_pdf_status] *)

Definition check_pdf_status_body (args : check_pdf_status_args) : M tool_result :=
  let apiKey := cs_apiKey args in
  let requestId := cs_requestId args in
  response <- callApi apiKey (status_endpoint requestId) GET None ;;
  let data := snd response in
  renderStatus <- lift (get_prop data "renderStatus") ;;
  if is_string renderStatus "SUCCESS" then
    details <- lift (render_details data) ;;
    ret (success ("PDF Ready! " +:+ details))
  else if is_string renderStatus "ONGOING" then
    ret (success ("PDF generation is still in progress. Request ID: " +:+ requestId
                  +:+ ". Please check again in a few seconds."))
  else
    ret (failure ("PDF generation failed. Request ID: " +:+ requestId)).

Definition check_pdf_status (args : check_pdf_status_args) : M tool_result :=
  try_catch (check_pdf_status_body args)
    (fun err => ret (failure ("Error checking PDF status: " +:+ catch_message err))).

(** ** Tool 4: [html_to_pdf] *)

(** [if (param) { try { payload.key = JSON.parse(param) } catch { throw new
    Error("Invalid JSON provided for 'key' parameter") } }]: an absent or
    empty [param] leaves the payload as it is. *)
Definition add_json_param (key : string) (param : option string)
    (payload : list (string * json)) : M (list (string * json)) :=
  match param with
  | None => ret payload
  | Some s =>
      if truthy_string s then
        match JSON_parse s with
        | Some v => ret (payload ++ [(key, v)])%list
        | None => throw (Error ("Invalid JSON provided for '" +:+ key +:+ "' parameter"))
        end
      else ret payload
  end.

(** [if (flag !== undefined) payload.key = flag] *)
Definition add_flag (key : string) (flag : option bool)
    (payload : list (string * json)) : list (string * json) :=
  match flag with
  | None => payload
  | Some b => (payload ++ [(key, JBool b)])%list
  end.

(** [convertToImage ? "PNG" : "PDF"] *)
Definition fileType (convertToImage : option bool) : string :=
  match convertToImage with
  | Some true => "PNG"
  | _ => "PDF"
  end.

(** The text returned for a queued render the caller does not wait for. *)
Definition queued_text (requestId : js_value) : string :=
  "PDF generation queued (taking longer than 30 seconds)." +:+ nl
  +:+ "Request ID: " +:+ String_of requestId +:+ nl
  +:+ "Use the check_pdf_status tool to monitor progress.".

(** [waitForCompletion = true] in the parameter list *)
Definition default_true (flag : option bool) : bool :=
  match flag with
  | None => true
  | Some b => b
  end.

Definition html_to_pdf_payload (args : html_to_pdf_args) : M json :=
  payload1 <- add_json_param "pdfParams" (hp_pdfParams args)
                [("html", JString (hp_html args))] ;;
  payload2 <- add_json_param "metadata" (hp_metadata args) payload1 ;;
  ret (JObject (add_flag "hasCover" (hp_hasCover args)
                  (add_flag "convertToImage" (hp_convertToImage args) payload2))).

Definition html_to_pdf_body (args : html_to_pdf_args) : M tool_result :=
  let apiKey := hp_apiKey args in
  let convertToImage := hp_convertToImage args in
  let waitForCompletion := default_true (hp_waitForCompletion args) in
  payload <- html_to_pdf_payload args ;;
  response <- callApi apiKey "html-to-pdf/sync" POST (Some payload) ;;
  let '(status, result) := response in
  if (status =? 200)%Z then
    details <- lift (render_details result) ;;
    ret (success (fileType convertToImage +:+ " Generated Successfully!" +:+ nl
                  +:+ details))
  else if (status =? 202)%Z then
    if negb waitForCompletion then
      requestId <- lift (get_prop result "requestId") ;;
      ret (success (queued_text requestId))
    else
      requestId <- lift (get_prop result "requestId") ;;
      finalResult <- pollForPdfCompletion apiKey (String_of requestId)
                       default_maxAttempts default_initialDelayMs ;;
      details <- lift (render_details finalResult) ;;
      ret (success (fileType convertToImage +:+ " Generated Successfully (async)!" +:+ nl
                    +:+ details))
  else
    throw (Error ("Unexpected response status: " +:+ Z_toString status)).

Definition html_to_pdf (args : html_to_pdf_args) : M tool_result :=
  try_catch (html_to_pdf_body args)
    (fun err => ret (failure ("Error converting HTML to PDF: " +:+ catch_message err))).

(** ** Tool 5: [generate_pdf] *)

Definition generate_pdf_payload (args : generate_pdf_args) : M json :=
  match JSON_parse (gp_data args) with
  | Some parsedData =>
      ret (JObject [("templateId", JString (gp_templateId args)); ("data", parsedData)])
  | None => throw (Error "Invalid JSON provided for 'data' parameter")
  end.

Definition generate_pdf_body (args : generate_pdf_args) : M tool_result :=
  let apiKey := gp_apiKey args in
  let waitForCompletion := default_true (gp_waitForCompletion args) in
  payload <- generate_pdf_payload args ;;
  response <- callApi apiKey "pdf/sync" POST (Some payload) ;;
  let '(status, result) := response in
  if (status =? 200)%Z then
    details <- lift (render_details result) ;;
    ret (success ("PDF Generated Successfully!" +:+ nl +:+ details))
  else if (status =? 202)%Z then
    if negb waitForCompletion then
      requestId <- lift (get_prop result "requestId") ;;
      ret (success (queued_text requestId))
    else
      requestId <- lift (get_prop result "requestId") ;;
      finalResult <- pollForPdfCompletion apiKey (String_of requestId)
                       default_maxAttempts default_initialDelayMs ;;
      details <- lift (render_details finalResult) ;;
      ret (success ("PDF Generated Successfully (async)!" +:+ nl +:+ details))
  else
    throw (Error ("Unexpected response status: " +:+ Z_toString status)).

Definition generate_pdf (args : generate_pdf_args) : M tool_result :=
  try_catch (generate_pdf_body args)
    (fun err => ret (failure ("Error generating PDF: " +:+ catch_message err))).

End Program.

(** ** A reference runtime

    The theorems below hold for every [Runtime].  To run the handlers on
    concrete inputs one instance is spelled out: a JSON reader and printer
    for the ECMA-404 grammar.  Numbers are kept by their lexeme and printed
    as written; the wording of engine-made messages is V8's for the
    [TypeError] and a fixed phrase for the [SyntaxError]. *)

Module Reference.

Definition dq : string := String (Ascii.ascii_of_nat 34) EmptyString.

Definition code (c : Ascii.ascii) : nat := Ascii.nat_of_ascii c.

Definition is_ws (c : Ascii.ascii) : bool :=
  let n := code c in
  Nat.eqb n 32 || Nat.eqb n 9 || Nat.eqb n 10 || Nat.eqb n 13.

Definition is_digit (c : Ascii.ascii) : bool :=
  let n := code c in Nat.leb 48 n && Nat.leb n 57.

Fixpoint skip_ws (s : string) : string :=
  match s with
  | String c rest => if is_ws c then skip_ws rest else s
  | EmptyString => s
  end.

(** [strip_prefix p s]: the rest of [s] after the literal [p]. *)
Fixpoint strip_prefix (p s : string) : option string :=
  match p with
  | EmptyString => Some s
  | String a p' =>
      match s with
      | String b s' => if Ascii.eqb a b then strip_prefix p' s' else None
      | EmptyString => None
      end
  end.

(** The longest run of digits at the head of [s]. *)
Fixpoint take_digits (s : string) : string * string :=
  match s with
  | String c rest =>
      if is_digit c then
        let '(ds, r) := take_digits rest in (String c ds, r)
      else (EmptyString, s)
  | EmptyString => (EmptyString, s)
  end.

(** number = [-] int [frac] [exp] *)
Definition parse_number (s : string) : option (string * string) :=
  let '(sign, s1) :=
    match s with
    | String "-"%char r => ("-", r)
    | _ => ("", s)
    end in
  let '(int, s2) := take_digits s1 in
  match int with
  | EmptyString => None
  | String d more =>
      if Ascii.eqb d "0"%char && truthy_string more then None
      else
        let frac :=
          match s2 with
          | String "."%char r =>
              let '(ds, r') := take_digits r in
              if truthy_string ds then Some ("." +:+ ds, r') else None
          | _ => Some ("", s2)
          end in
        match frac with
        | None => None
        | Some (fr, s3) =>
            let after_e (e : string) (r : string) :=
              let '(sg, r1) :=
                match r with
                | String "+"%char r' => ("+", r')
                | String "-"%char r' => ("-", r')
                | _ => ("", r)
                end in
              let '(ds, r2) := take_digits r1 in
              if truthy_string ds
              then Some (sign +:+ int +:+ fr +:+ e +:+ sg +:+ ds, r2)
              else None in
            match s3 with
            | String "e"%char r => after_e "e" r
            | String "E"%char r => after_e "E" r
            | _ => Some (sign +:+ int +:+ fr, s3)
            end
        end
  end.

Definition hex_value (c : Ascii.ascii) : option nat :=
  let n := code c in
  if Nat.leb 48 n && Nat.leb n 57 then Some (n - 48)
  else if Nat.leb 65 n && Nat.leb n 70 then Some (n - 55)
  else if Nat.leb 97 n && Nat.leb n 102 then Some (n - 87)
  else None.

(** The UTF-8 bytes of a 16-bit code unit. *)
Definition utf8 (u : nat) : string :=
  let byte n := String (Ascii.ascii_of_nat n) EmptyString in
  if Nat.ltb u 128 then byte u
  else if Nat.ltb u 2048 then byte (192 + u / 64) +:+ byte (128 + u mod 64)
  else byte (224 + u / 4096) +:+ byte (128 + (u / 64) mod 64) +:+ byte (128 + u mod 64).

Definition parse_unicode_escape (s : string) : option (string * string) :=
  match s with
  | String a (String b (String c (String d rest))) =>
      match hex_value a, hex_value b, hex_value c, hex_value d with
      | Some x, Some y, Some z, Some t =>
          Some (utf8 (((x * 16 + y) * 16 + z) * 16 + t), rest)
      | _, _, _, _ => None
      end
  | _ => None
  end.

(** The characters of a string literal after its opening quote. *)
Fixpoint parse_chars (fuel : nat) (s : string) : option (string * string) :=
  match fuel with
  | O => None
  | S fuel' =>
      match s with
      | EmptyString => None
      | String c rest =>
          if Nat.eqb (code c) 34 then Some (EmptyString, rest)
          else if Nat.ltb (code c) 32 then None
          else if Nat.eqb (code c) 92 then
            match rest with
            | EmptyString => None
            | String e rest' =>
                let simple (n : nat) :=
                  match parse_chars fuel' rest' with
                  | Some (cs, r) => Some (String (Ascii.ascii_of_nat n) cs, r)
                  | None => None
                  end in
                let n := code e in
                if Nat.eqb n 34 then simple 34
                else if Nat.eqb n 92 then simple 92
                else if Nat.eqb n 47 then simple 47
                else if Nat.eqb n 98 then simple 8
                else if Nat.eqb n 102 then simple 12
                else if Nat.eqb n 110 then simple 10
                else if Nat.eqb n 114 then simple 13
                else if Nat.eqb n 116 then simple 9
                else if Nat.eqb n 117 then
                  match parse_unicode_escape rest' with
                  | Some (u, rest'') =>
                      match parse_chars fuel' rest'' with
                      | Some (cs, r) => Some (u +:+ cs, r)
                      | None => None
                      end
                  | None => None
                  end
                else None
            end
          else
            match parse_chars fuel' rest with
            | Some (cs, r) => Some (String c cs, r)
            | None => None
            end
      end
  end.

Definition parse_string (s : string) : option (string * string) :=
  parse_chars (S (String.length s)) s.

Fixpoint parse_value (fuel : nat) (s : string) : option (json * string) :=
  match fuel with
  | O => None
  | S fuel' =>
      match skip_ws s with
      | EmptyString => None
      | String c rest as s' =>
          let n := code c in
          if Nat.eqb n 34 then
            match parse_string rest with
            | Some (str, r) => Some (JString str, r)
            | None => None
            end
          else if Nat.eqb n 91 then
            match skip_ws rest with
            | String "]"%char r => Some (JArray [], r)
            | _ =>
                match parse_items fuel' rest with
                | Some (items, r) => Some (JArray items, r)
                | None => None
                end
            end
          else if Nat.eqb n 123 then
            match skip_ws rest with
            | String "}"%char r => Some (JObject [], r)
            | _ =>
                match parse_members fuel' rest with
                | Some (members, r) => Some (JObject members, r)
                | None => None
                end
            end
          else if Nat.eqb n 45 || is_digit c then
            match parse_number s' with
            | Some (lexeme, r) => Some (JNumber lexeme, r)
            | None => None
            end
          else
            match strip_prefix "null" s' with
            | Some r => Some (JNull, r)
            | None =>
                match strip_prefix "true" s' with
                | Some r => Some (JBool true, r)
                | None =>
                    match strip_prefix "false" s' with
                    | Some r => Some (JBool false, r)
                    | None => None
                    end
                end
            end
      end
  end

with parse_items (fuel : nat) (s : string) : option (list json * string) :=
  match fuel with
  | O => None
  | S fuel' =>
      match parse_value fuel' s with
      | None => None
      | Some (v, r) =>
          match skip_ws r with
          | String "]"%char r' => Some ([v], r')
          | String ","%char r' =>
              match parse_items fuel' r' with
              | Some (vs, r'') => Some (v :: vs, r'')
              | None => None
              end
          | _ => None
          end
      end
  end

with parse_members (fuel : nat) (s : string)
    : option (list (string * json) * string) :=
  match fuel with
  | O => None
  | S fuel' =>
      match skip_ws s with
      | String c rest =>
          if Nat.eqb (code c) 34 then
            match parse_string rest with
            | None => None
            | Some (k, r) =>
                match skip_ws r with
                | String ":"%char r1 =>
                    match parse_value fuel' r1 with
                    | None => None
                    | Some (v, r2) =>
                        match skip_ws r2 with
                        | String "}"%char r3 => Some ([(k, v)], r3)
                        | String ","%char r3 =>
                            match parse_members fuel' r3 with
                            | Some (ms, r4) => Some ((k, v) :: ms, r4)
                            | None => None
                            end
                        | _ => None
                        end
                    end
                | _ => None
                end
            end
          else None
      | EmptyString => None
      end
  end.

(** [JSON.parse]: one value, then only white space. *)
Definition parse (s : string) : option json :=
  match parse_value (2 * String.length s + 2) s with
  | Some (v, r) =>
      match skip_ws r with
      | EmptyString => Some v
      | String _ _ => None
      end
  | None => None
  end.

Definition hex_digit (n : nat) : string :=
  String (Ascii.ascii_of_nat (if Nat.ltb n 10 then 48 + n else 87 + n)) EmptyString.

Fixpoint quote_chars (s : string) : string :=
  match s with
  | EmptyString => EmptyString
  | String c rest =>
      let n := code c in
      (if Nat.eqb n 34 then "\" +:+ dq
       else if Nat.eqb n 92 then "\\"
       else if Nat.eqb n 8 then "\b"
       else if Nat.eqb n 12 then "\f"
       else if Nat.eqb n 10 then "\n"
       else if Nat.eqb n 13 then "\r"
       else if Nat.eqb n 9 then "\t"
       else if Nat.ltb n 32 then "\u00" +:+ hex_digit (n / 16) +:+ hex_digit (n mod 16)
       else String c EmptyString) +:+ quote_chars rest
  end.

Definition quote (s : string) : string := dq +:+ quote_chars s +:+ dq.

Fixpoint spaces (n : nat) : string :=
  match n with
  | O => EmptyString
  | S n' => String " "%char (spaces n')
  end.

(** [JSON.stringify(v, null, space)] with the current indentation [ind]. *)
Fixpoint stringify_at (space ind : nat) (v : json) : string :=
  let break (i : nat) := if Nat.eqb space 0 then "" else nl +:+ spaces i in
  let colon := if Nat.eqb space 0 then ":" else ": " in
  match v with
  | JNull => "null"
  | JBool true => "true"
  | JBool false => "false"
  | JNumber lexeme => lexeme
  | JString s => quote s
  | JArray [] => "[]"
  | JArray items =>
      "[" +:+ break (ind + space)
      +:+ (fix go (l : list json) : string :=
             match l with
             | [] => ""
             | x :: rest =>
                 stringify_at space (ind + space) x
                 +:+ match rest with
                     | [] => ""
                     | _ :: _ => "," +:+ break (ind + space) +:+ go rest
                     end
             end) items
      +:+ break ind +:+ "]"
  | JObject [] => "{}"
  | JObject members =>
      "{" +:+ break (ind + space)
      +:+ (fix go (l : list (string * json)) : string :=
             match l with
             | [] => ""
             | (k, x) :: rest =>
                 quote k +:+ colon +:+ stringify_at space (ind + space) x
                 +:+ match rest with
                     | [] => ""
                     | _ :: _ => "," +:+ break (ind + space) +:+ go rest
                     end
             end) members
      +:+ break ind +:+ "}"
  end.

(** A number is falsy when it is zero: every digit of its mantissa is [0]. *)
Fixpoint mantissa_nonzero (lexeme : string) : bool :=
  match lexeme with
  | EmptyString => false
  | String c rest =>
      if Ascii.eqb c "e"%char || Ascii.eqb c "E"%char then false
      else if is_digit c && negb (Ascii.eqb c "0"%char) then true
      else mantissa_nonzero rest
  end.

#[export] Instance runtime : Runtime := {
  JSON_parse := parse;
  SyntaxError_message := fun _ => "Unexpected token in JSON";
  JSON_stringify := fun v space => stringify_at space 0 v;
  TypeError_message := fun k => "Cannot read properties of null (reading '" +:+ k +:+ "')";
  Number_toString := fun lexeme => lexeme;
  Number_truthy := mantissa_nonzero;
  env_PDFNOODLE_API_BASE := None
}.

End Reference.

(** ** Session management: the [transports] object and the [/mcp] routes *)

(** A [StreamableHTTPServerTransport] object, as far as this program reads
    it: [sessionId] is [undefined] until the SDK has accepted the
    initialization request, and the SDK marks the transport closed when it
    fires [onclose]. *)
Record transport := {
  sessionId : option string;
  closed : bool
}.

(** The server's state: the transport objects created so far (an object is
    identified by its position) and the own properties of
    [const transports: Record<string, ...> = {}]. *)
Record server := {
  heap : list transport;
  transports : gmap string nat
}.

Definition empty_server : server := {| heap := []; transports := ∅ |}.

(** [transports] is an object literal, so a property read that finds no own
    property continues in [Object.prototype]; these are its members. *)
Definition Object_prototype_keys : list string :=
  [ "constructor"; "__proto__"; "hasOwnProperty"; "isPrototypeOf";
    "propertyIsEnumerable"; "toLocaleString"; "toString"; "valueOf";
    "__defineGetter__"; "__defineSetter__"; "__lookupGetter__";
    "__lookupSetter__" ].

Inductive property :=
| OwnTransport (t : nat)
| Inherited (name : string)
| Undefined.

(** [transports[key]] *)
Definition transports_get (s : server) (key : string) : property :=
  match transports s !! key with
  | Some t => OwnTransport t
  | None =>
      if existsb (String.eqb key) Object_prototype_keys then Inherited key
      else Undefined
  end.

(** Every member of [Object.prototype] is a function or an object. *)
Definition truthy_property (p : property) : bool :=
  match p with
  | OwnTransport _ => true
  | Inherited _ => true
  | Undefined => false
  end.

(** The output of [randomUUID()]: 8-4-4-4-12 hexadecimal digits. *)
Definition is_hex (c : Ascii.ascii) : bool :=
  let n := Ascii.nat_of_ascii c in
  (Nat.leb 48 n && Nat.leb n 57) || (Nat.leb 97 n && Nat.leb n 102).

Fixpoint take_hex (n : nat) (s : string) : option string :=
  match n with
  | O => Some s
  | S n' =>
      match s with
      | String c rest => if is_hex c then take_hex n' rest else None
      | EmptyString => None
      end
  end.

Fixpoint shaped (groups : list nat) (s : string) : bool :=
  match groups with
  | [] => false
  | n :: more =>
      match take_hex n s with
      | None => false
      | Some rest =>
          match more, rest with
          | [], EmptyString => true
          | _ :: _, String "-"%char rest' => shaped more rest'
          | _, _ => false
          end
      end
  end.

Definition uuid_shaped (id : string) : bool := shaped [8; 4; 4; 4; 12]%nat id.

(** An inbound request to [/mcp]: its [mcp-session-id] header and its body
    as [express.json()] parsed it. *)
Record http_request := {
  mcp_session_id : option string;
  body : js_value
}.

(** Where a route handler sends the request. *)
Inductive route :=
| Reuse (t : nat)
    (** [transport.handleRequest] of the registered transport *)
| NewSession (t : nat)
    (** a transport just created and connected to a new MCP server *)
| InvalidSession
    (** [res.status(400).json({jsonrpc: "2.0", error: {code: -32000,
        message: "Invalid session"}, id: null})] *)
| NotATransport (name : string)
    (** the value read from [transports] is a member of [Object.prototype]:
        it has no [handleRequest], the call throws a [TypeError] and the
        [async] route handler rejects without writing a response *).

Definition invalid_session_status : Z := 400.

Definition invalid_session_body : json :=
  JObject [ ("jsonrpc", JString "2.0");
            ("error", JObject [ ("code", JNumber "-32000");
                                ("message", JString "Invalid session") ]);
            ("id", JNull) ].

(** What the route handler itself writes to [res]: the 400 answer, or
    nothing (the transport answers, or nobody does). *)
Definition written (r : route) : option (Z * json) :=
  match r with
  | InvalidSession => Some (invalid_session_status, invalid_session_body)
  | _ => None
  end.

Section Sessions.

(** [isInitializeRequest] of the MCP SDK. *)
Variable isInitializeRequest : js_value -> bool.

(** [new StreamableHTTPServerTransport({...})] *)
Definition new_transport (s : server) : nat * server :=
  (length (heap s),
   {| heap := heap s ++ [{| sessionId := None; closed := false |}];
      transports := transports s |}).

(** [app.post("/mcp", ...)] up to the call of [transport.handleRequest]. *)
Definition post_mcp (s : server) (req : http_request) : route * server :=
  let sessionId_truthy :=
    match mcp_session_id req with
    | Some sid => truthy_string sid
    | None => false
    end in
  let found :=
    match mcp_session_id req with
    | Some sid => if truthy_string sid then transports_get s sid else Undefined
    | None => Undefined
    end in
  if sessionId_truthy && truthy_property found then
    match found with
    | OwnTransport t => (Reuse t, s)
    | Inherited name => (NotATransport name, s)
    | Undefined => (InvalidSession, s)
    end
  else if negb sessionId_truthy && isInitializeRequest (body req) then
    let '(t, s') := new_transport s in (NewSession t, s')
  else (InvalidSession, s).

(** [app.get("/mcp", ...)] and [app.delete("/mcp", ...)]: the same lookup,
    with an absent header read as the key ["undefined"]. *)
Definition lookup_mcp (s : server) (req : http_request) : route :=
  let key := match mcp_session_id req with Some sid => sid | None => "undefined" end in
  match transports_get s key with
  | OwnTransport t => Reuse t
  | Inherited name => NotATransport name
  | Undefined => InvalidSession
  end.

(** [onsessioninitialized: (id) => { transports[id] = transport }], run by
    the SDK right after it has stored [id] as the transport's [sessionId]. *)
Definition onsessioninitialized (t : nat) (id : string) (s : server) : server :=
  {| heap := alter (fun tr => {| sessionId := Some id; closed := closed tr |}) t (heap s);
     transports := <[id := t]> (transports s) |}.

(** [transport.onclose = () => { if (transport.sessionId) delete
    transports[transport.sessionId] }] *)
Definition onclose (t : nat) (s : server) : server :=
  {| heap := alter (fun tr => {| sessionId := sessionId tr; closed := true |}) t (heap s);
     transports :=
       match heap s !! t with
       | Some {| sessionId := Some id |} =>
           if truthy_string id then delete id (transports s) else transports s
       | _ => transports s
       end |}.

(** What can happen to the server: a request arrives on a route, or the SDK
    runs one of the two callbacks the [POST] route installed.  The SDK
    generates a session id with [randomUUID] once per transport, for a
    transport that is not closed; it may close any transport. *)
Inductive label :=
| Post (req : http_request)
| Lookup (req : http_request)
| SessionInitialized (t : nat) (id : string)
| Closed (t : nat).

Inductive step : server -> label -> server -> Prop :=
| step_post s req :
    step s (Post req) (snd (post_mcp s req))
| step_lookup s req :
    step s (Lookup req) s
| step_initialized s t id :
    heap s !! t = Some {| sessionId := None; closed := false |} ->
    uuid_shaped id = true ->
    step s (SessionInitialized t id) (onsessioninitialized t id s)
| step_closed s t tr :
    heap s !! t = Some tr ->
    step s (Closed t) (onclose t s).

Inductive reachable : server -> Prop :=
| reachable_start : reachable empty_server
| reachable_step s l s' : reachable s -> step s l s' -> reachable s'.

(** The registry invariant: an entry's key is a generated id, and the entry
    points to a transport that is not closed and whose [sessionId] is that
    key. *)
Definition registered_live (s : server) : Prop :=
  forall id t, transports s !! id = Some t ->
    uuid_shaped id = true
    /\ heap s !! t = Some {| sessionId := Some id; closed := false |}.

End Sessions.

(** ** Vocabulary of the statements *)

Section Vocabulary.

Context `{RT : Runtime}.

(** The world after one more [fetch]. *)
Definition fetched (r : request) (w : world) : world :=
  {| served := S (served w); trace := (trace w ++ [Fetch r])%list |}.

(** What [callApi] makes of an upstream outcome. *)
Definition callApi_result (o : fetch_outcome) : result (Z * json) :=
  match o with
  | Rejects reason => Throw reason
  | Responds status (BodyFails reason) => Throw reason
  | Responds status (BodyText text) =>
      if negb (response_ok status) && negb (status =? 202)%Z then
        Throw (Error ("PDFNoodle API Error (" +:+ Z_toString status +:+ "): " +:+ text))
      else
        match JSON_parse text with
        | Some data => Ok (status, data)
        | None => Throw (ErrorObject SyntaxErrorC (SyntaxError_message text))
        end
  end.

(** The upstream outcome is a status descriptor whose [renderStatus] is [st]. *)
Definition renders (st : string) (o : fetch_outcome) : bool :=
  match callApi_result o with
  | Ok (_, JObject members) => is_string (obj_get "renderStatus" members) st
  | _ => false
  end.

(** The descriptor itself. *)
Definition descriptor (o : fetch_outcome) : option json :=
  match callApi_result o with
  | Ok (_, data) => Some data
  | Throw _ => None
  end.

(** [GET pdf/status/${requestId}] *)
Definition status_request (apiKey requestId : string) : request :=
  api_request apiKey (status_endpoint requestId) GET None.

(** The world after one more attempt of the poll loop. *)
Definition attempted (apiKey requestId : string) (delay : number) (w : world) : world :=
  {| served := S (served w);
     trace := (trace w ++ [Sleep delay; Fetch (status_request apiKey requestId)])%list |}.

(** The back-off schedule in closed form: the delay before attempt [i + 1]
    under the default [initialDelayMs]. *)
Definition backoff_delay (i : nat) : number :=
  match i with
  | 0%nat => 2000%Q
  | 1%nat => 3000%Q
  | 2%nat => 4500%Q
  | 3%nat => 6750%Q
  | _ => 10000%Q
  end.

(** What [n] attempts starting at attempt [i + 1] leave in the trace. *)
Fixpoint poll_events (apiKey requestId : string) (i n : nat) : list event :=
  match n with
  | O => []
  | S n' =>
      Sleep (backoff_delay i) :: Fetch (status_request apiKey requestId)
        :: poll_events apiKey requestId (S i) n'
  end.

(** The event is a request to the status endpoint, [pdf/status/...]. *)
Definition is_status_query (e : event) : bool :=
  match e with
  | Fetch r => String.prefix (PDFNOODLE_API_BASE +:+ "pdf/status/") (req_url r)
  | Sleep _ => false
  end.

Definition status_queries (events : list event) : nat :=
  length (List.filter is_status_query events).

(** A JSON-string parameter the handler rejects: supplied, not empty, and
    not parsed by [JSON.parse]. *)
Definition offending (param : option string) : bool :=
  match param with
  | Some s =>
      truthy_string s && match JSON_parse s with Some _ => false | None => true end
  | None => false
  end.

(** The result a handler's [catch] block makes of the outcome of its [try]
    block. *)
Definition contained (prefix : string) (outcome : result tool_result) : tool_result :=
  match outcome with
  | Ok r => r
  | Throw t => failure (prefix +:+ catch_message t)
  end.

(** [needle] occurs in [hay]. *)
Fixpoint occurs (needle hay : string) : bool :=
  String.prefix needle hay
  || match hay with
     | String _ rest => occurs needle rest
     | EmptyString => false
     end.

(** [POST html-to-pdf/sync] with the given payload. *)
Definition html_to_pdf_request (apiKey : string) (payload : json) : request :=
  api_request apiKey "html-to-pdf/sync" POST (Some payload).

(** [GET integration/templates], no body. *)
Definition list_templates_request (apiKey : string) : request :=
  api_request apiKey "integration/templates" GET None.

(** The same invocation with the parameter left out. *)
Definition without_pdfParams (args : html_to_pdf_args) : html_to_pdf_args :=
  {| hp_apiKey := hp_apiKey args;
     hp_html := hp_html args;
     hp_pdfParams := None;
     hp_convertToImage := hp_convertToImage args;
     hp_metadata := hp_metadata args;
     hp_hasCover := hp_hasCover args;
     hp_waitForCompletion := hp_waitForCompletion args |}.

Definition without_metadata (args : html_to_pdf_args) : html_to_pdf_args :=
  {| hp_apiKey := hp_apiKey args;
     hp_html := hp_html args;
     hp_pdfParams := hp_pdfParams args;
     hp_convertToImage := hp_convertToImage args;
     hp_metadata := None;
     hp_hasCover := hp_hasCover args;
     hp_waitForCompletion := hp_waitForCompletion args |}.

(** [html_to_pdf] builds a payload that has no member [key] and sends it
    upstream as the first thing it does. *)
Definition issued_without (api : upstream) (key : string) (args : html_to_pdf_args)
    (w : world) : Prop :=
  exists members events,
    html_to_pdf_payload args w = (Ok (JObject members), w)
    /\ obj_get key members = None
    /\ trace (snd (html_to_pdf api args w))
       = (trace w
          ++ Fetch (html_to_pdf_request (hp_apiKey args) (JObject members)) :: events)%list.

End Vocabulary.

(** ** Concrete inputs, run under the reference runtime *)

Module Examples.

Import Reference.

Definition quoted (s : string) : string := dq +:+ s +:+ dq.

(** [{"renderStatus":"<st>"}] *)
Definition status_body (st : string) : string :=
  "{" +:+ quoted "renderStatus" +:+ ":" +:+ quoted st +:+ "}".

(** ONGOING for the first [k] fetches, then [final]. *)
Definition job (k : nat) (final : string) : upstream :=
  fun n _ =>
    Responds 200 (BodyText (status_body (if Nat.ltb n k then "ONGOING" else final))).

(** [202 {"requestId":"r1","statusUrl":"u","message":"queued"}] *)
Definition queued : upstream :=
  fun _ _ =>
    Responds 202 (BodyText ("{" +:+ quoted "requestId" +:+ ":" +:+ quoted "r1" +:+ ","
                            +:+ quoted "statusUrl" +:+ ":" +:+ quoted "u" +:+ ","
                            +:+ quoted "message" +:+ ":" +:+ quoted "queued" +:+ "}")).

(** [200 {"signedUrl":"https://x/y.pdf"}] *)
Definition rendered : upstream :=
  fun _ _ =>
    Responds 200 (BodyText ("{" +:+ quoted "signedUrl" +:+ ":"
                            +:+ quoted "https://x/y.pdf" +:+ "}")).

(** The network is down. *)
Definition offline : upstream :=
  fun _ _ => Rejects (ErrorObject TypeErrorC "fetch failed").

Definition html_args (pdfParams metadata : option string)
    (waitForCompletion : option bool) : html_to_pdf_args :=
  {| hp_apiKey := "key";
     hp_html := "<h1>Hello</h1>";
     hp_pdfParams := pdfParams;
     hp_convertToImage := None;
     hp_metadata := metadata;
     hp_hasCover := None;
     hp_waitForCompletion := waitForCompletion |}.

Definition template_args (data : string) : generate_pdf_args :=
  {| gp_apiKey := "key";
     gp_templateId := "invoice-001";
     gp_data := data;
     gp_waitForCompletion := None |}.

(** A session id as [randomUUID] returns them. *)
Definition a_uuid : string := "123e4567-e89b-42d3-a456-426614174000".

(** The server after its first initialization request has been accepted. *)
Definition one_session : server :=
  onsessioninitialized 0 a_uuid
    (snd (post_mcp (fun _ => true) empty_server
            {| mcp_session_id := None; body := None |})).

End Examples.

(** ** Vocabulary of the further properties *)

Section FurtherVocabulary.

Context `{RT : Runtime}.


(** The requests sent upstream. *)
Definition fetches (events : list event) : nat :=
  length (List.filter (fun e => match e with Fetch _ => true | Sleep _ => false end)
            events).

(** What the poll loop reads from an upstream outcome: [data.renderStatus],
    when [callApi] returns and the read does not throw. *)
Definition polled_status (o : fetch_outcome) : result js_value :=
  match callApi_result o with
  | Throw t => Throw t
  | Ok (_, data) => get_prop data "renderStatus"
  end.

(** The outcome makes the poll loop go round again: a descriptor whose
    [renderStatus] is neither ["SUCCESS"] nor ["FAILED"]. *)
Definition pending (o : fetch_outcome) : bool :=
  match polled_status o with
  | Ok renderStatus =>
      negb (is_string renderStatus "SUCCESS") && negb (is_string renderStatus "FAILED")
  | Throw _ => false
  end.

(** [POST pdf/sync] with the given payload. *)
Definition generate_pdf_request (apiKey : string) (payload : json) : request :=
  api_request apiKey "pdf/sync" POST (Some payload).

(** [GET integration/templates/${templateId}/variables], no body. *)
Definition template_variables_request (apiKey templateId : string) : request :=
  api_request apiKey ("integration/templates/" +:+ templateId +:+ "/variables") GET None.

(** The value a JSON-string parameter contributes to the payload: none
    when the parameter is absent or empty. *)
Definition json_param_value (param : option string) : js_value :=
  match param with
  | Some s => if truthy_string s then JSON_parse s else None
  | None => None
  end.

(** The three detail lines when the descriptor carries no [signedUrl] and no
    [metadata]. *)
Definition details_of_nothing : string :=
  "Download URL: undefined" +:+ nl +:+ "Execution time: N/A" +:+ nl +:+ "File size: N/A".

End FurtherVocabulary.

Module FurtherExamples.

Import Reference Examples.

(** [200 {}] on every fetch. *)
Definition empty_object : upstream :=
  fun _ _ => Responds 200 (BodyText "{}").

(** ONGOING once, then the network is down. *)
Definition drops_after_one : upstream :=
  fun n r => if Nat.ltb n 1 then job 1 "SUCCESS" n r else offline n r.


(** [202 {}]: queued, but no [requestId]; then SUCCESS. *)
Definition queued_anonymously : upstream :=
  fun n r =>
    match n with
    | O => Responds 202 (BodyText "{}")
    | S _ => job 0 "SUCCESS" n r
    end.

(** [200] with the full descriptor of the README:
    [{"signedUrl":"https://x/y.pdf","metadata":{"executionTime":"1.2s","fileSize":"10KB"}}] *)
Definition rendered_in_full : upstream :=
  fun _ _ =>
    Responds 200
      (BodyText ("{" +:+ quoted "signedUrl" +:+ ":" +:+ quoted "https://x/y.pdf" +:+ ","
                 +:+ quoted "metadata" +:+ ":{"
                 +:+ quoted "executionTime" +:+ ":" +:+ quoted "1.2s" +:+ ","
                 +:+ quoted "fileSize" +:+ ":" +:+ quoted "10KB" +:+ "}}")).

(** [201 {}] on every fetch. *)
Definition created : upstream :=
  fun _ _ => Responds 201 (BodyText "{}").

Definition status_args : check_pdf_status_args :=
  {| cs_apiKey := "key"; cs_requestId := "r1" |}.

Definition full_html_args : html_to_pdf_args :=
  {| hp_apiKey := "key";
     hp_html := "<h1>Hello</h1>";
     hp_pdfParams := Some ("{" +:+ quoted "format" +:+ ":" +:+ quoted "A4" +:+ "}");
     hp_convertToImage := Some false;
     hp_metadata := None;
     hp_hasCover := Some false;
     hp_waitForCompletion := None |}.

(** [one_session] after its transport has closed. *)
Definition closed_session : server := onclose 0 one_session.

End FurtherExamples.

(** * Theorems *)

(** ** Strings *)

Lemma append_cons (x : Ascii.ascii) (a b : string) :
  String x a +:+ b = String x (a +:+ b).
Proof. reflexivity. Qed.

Lemma append_assoc (a b c : string) : (a +:+ b) +:+ c = a +:+ (b +:+ c).
Proof.
  induction a as [|x a IH]; [reflexivity|].
  rewrite !append_cons. now rewrite IH.
Qed.

Lemma prefix_append (a b c : string) :
  String.prefix (a +:+ b) (a +:+ c) = String.prefix b c.
Proof.
  induction a as [|x a IH]; [reflexivity|].
  rewrite !append_cons. cbn [String.prefix].
  destruct (Ascii.ascii_dec x x) as [_|ne]; [exact IH | congruence].
Qed.

Lemma prefix_self_append (a b : string) : String.prefix a (a +:+ b) = true.
Proof.
  induction a as [|x a IH].
  - destruct b; reflexivity.
  - rewrite append_cons. cbn [String.prefix].
    destruct (Ascii.ascii_dec x x) as [_|ne]; [exact IH | congruence].
Qed.

Lemma occurs_head (needle after : string) : occurs needle (needle +:+ after) = true.
Proof.
  destruct (needle +:+ after) eqn:E; cbn [occurs]; rewrite <- E;
    now rewrite prefix_self_append.
Qed.

Lemma occurs_append_r (needle before hay : string) :
  occurs needle hay = true -> occurs needle (before +:+ hay) = true.
Proof.
  intros H. induction before as [|x before IH]; [exact H|].
  rewrite append_cons. cbn [occurs]. rewrite IH. apply orb_true_r.
Qed.

Lemma is_string_eq (v : js_value) (lit : string) :
  is_string v lit = true -> v = Some (JString lit).
Proof.
  destruct v as [[]|]; simpl; try discriminate.
  intros H. apply String.eqb_eq in H. now subst.
Qed.

(** ** Running the monad *)

Lemma bind_run {A B} (m : M A) (k : A -> M B) (w : world) :
  bind m k w = match m w with
               | (Ok a, w') => k a w'
               | (Throw t, w') => (Throw t, w')
               end.
Proof. reflexivity. Qed.

Lemma bind_lift {A B} (r : result A) (k : A -> M B) (w : world) :
  bind (lift r) k w = match r with
                      | Ok a => k a w
                      | Throw t => (Throw t, w)
                      end.
Proof. unfold bind, lift. destruct r; reflexivity. Qed.

Section CallApi.

Context `{RT : Runtime}.
Variable api : upstream.

(** [callApi] issues exactly one [fetch]; its result is a function of the
    upstream's outcome for that request. *)
Lemma callApi_run apiKey endpoint method payload w :
  let r := api_request apiKey endpoint method payload in
  callApi api apiKey endpoint method payload w
  = (callApi_result (api (served w) r), fetched r w).
Proof.
  cbv zeta. unfold callApi, callApi_result. rewrite bind_run. unfold fetch at 1.
  fold (fetched (api_request apiKey endpoint method payload) w).
  destruct (api (served w) _) as [reason|status resp]; [reflexivity|].
  destruct (negb (response_ok status) && negb (status =? 202)%Z).
  - destruct resp; reflexivity.
  - destruct resp as [text|]; [|reflexivity].
    unfold response_json, response_text, bind, ret, throw.
    destruct (JSON_parse text); reflexivity.
Qed.

End CallApi.

(** ** The poll loop *)

Section PollTheorems.

Context `{RT : Runtime}.
Variable api : upstream.
Variables apiKey requestId : string.

Let query := status_request apiKey requestId.

Lemma query_is_status_query : is_status_query (Fetch query) = true.
Proof.
  unfold is_status_query, query, status_request, api_request, status_endpoint.
  cbn [req_url]. rewrite <- append_assoc. apply prefix_self_append.
Qed.

Lemma status_queries_poll_events i n :
  status_queries (poll_events apiKey requestId i n) = n.
Proof.
  unfold status_queries. revert i.
  induction n as [|n IH]; intros i; [reflexivity|].
  cbn [poll_events List.filter].
  change (is_status_query (Sleep (backoff_delay i))) with false. cbv iota.
  fold query. rewrite query_is_status_query. cbn [length]. now rewrite IH.
Qed.

Lemma poll_events_snoc i n :
  poll_events apiKey requestId i (S n)
  = (poll_events apiKey requestId i n
     ++ [Sleep (backoff_delay (i + n)); Fetch query])%list.
Proof.
  revert i. induction n as [|n IH]; intros i.
  - cbn. now rewrite Nat.add_0_r.
  - change (poll_events apiKey requestId i (S (S n)))
      with (Sleep (backoff_delay i) :: Fetch query
              :: poll_events apiKey requestId (S i) (S n)).
    rewrite IH. cbn [poll_events app].
    now replace (S i + n)%nat with (i + S n)%nat by lia.
Qed.

(** The recurrence of the source reproduces the closed form. *)
Lemma next_delay_backoff i : next_delay (backoff_delay i) = backoff_delay (S i).
Proof. do 5 (destruct i as [|i]; [reflexivity|]). reflexivity. Qed.

(** One turn of the loop. *)
Lemma poll_loop_step maxAttempts remaining delay w :
  poll_loop api apiKey requestId maxAttempts (S remaining) delay w
  = let w1 := attempted apiKey requestId delay w in
    match callApi_result (api (served w) query) with
    | Throw t => (Throw t, w1)
    | Ok (_, data) =>
        match get_prop data "renderStatus" with
        | Throw t => (Throw t, w1)
        | Ok renderStatus =>
            if is_string renderStatus "SUCCESS" then (Ok data, w1)
            else if is_string renderStatus "FAILED" then
              (Throw (Error ("PDF generation failed for request " +:+ requestId)), w1)
            else poll_loop api apiKey requestId maxAttempts remaining (next_delay delay) w1
        end
    end.
Proof.
  cbn [poll_loop]. rewrite bind_run. unfold setTimeout at 1.
  rewrite bind_run, callApi_run. cbn [log served].
  replace (fetched _ (log (Sleep delay) w)) with (attempted apiKey requestId delay w)
    by (unfold fetched, attempted, log, status_request; cbn [served trace];
        now rewrite <- app_assoc).
  cbv zeta. fold (status_request apiKey requestId). fold query.
  destruct (callApi_result _) as [[status data]|t]; [|reflexivity].
  cbn [snd]. rewrite bind_lift.
  destruct (get_prop data "renderStatus") as [renderStatus|t]; [|reflexivity].
  destruct (is_string renderStatus "SUCCESS"); [reflexivity|].
  destruct (is_string renderStatus "FAILED"); reflexivity.
Qed.

(** What the loop reads from an outcome that [renders] a status. *)
Lemma renders_inv st o :
  renders st o = true ->
  exists status members,
    callApi_result o = Ok (status, JObject members)
    /\ get_prop (JObject members) "renderStatus" = Ok (Some (JString st)).
Proof.
  unfold renders. destruct (callApi_result o) as [[status []]|]; try discriminate.
  intros H. exists status, members. split; [reflexivity|].
  cbn [get_prop]. now rewrite (is_string_eq _ _ H).
Qed.

(** [j] attempts answered ONGOING leave the loop [j] attempts further on. *)
Lemma poll_loop_ongoing maxAttempts j : forall remaining i w,
  (forall n, (n < j)%nat -> renders "ONGOING" (api (served w + n) query) = true) ->
  poll_loop api apiKey requestId maxAttempts (j + remaining) (backoff_delay i) w
  = poll_loop api apiKey requestId maxAttempts remaining (backoff_delay (i + j))
      {| served := served w + j;
         trace := (trace w ++ poll_events apiKey requestId i j)%list |}.
Proof.
  induction j as [|j IH]; intros remaining i w Hongoing.
  - cbn [poll_events Nat.add]. rewrite !Nat.add_0_r, app_nil_r. now destruct w.
  - change (S j + remaining)%nat with (S (j + remaining)).
    rewrite poll_loop_step. cbv zeta.
    destruct (renders_inv _ _ (Hongoing 0%nat ltac:(lia))) as (status & members & Hc & Hs).
    rewrite Nat.add_0_r in Hc. rewrite Hc, Hs.
    change (is_string (Some (JString "ONGOING")) "SUCCESS") with false.
    change (is_string (Some (JString "ONGOING")) "FAILED") with false.
    cbv iota. rewrite next_delay_backoff, IH.
    + unfold attempted. cbn [served trace poll_events].
      rewrite <- app_assoc. cbn [app]. fold query.
      now replace (S (served w) + j)%nat with (served w + S j)%nat by lia;
          replace (S i + j)%nat with (i + S j)%nat by lia.
    + intros n Hn. unfold attempted. cbn [served].
      replace (S (served w) + n)%nat with (served w + S n)%nat by lia.
      apply Hongoing. lia.
Qed.

(** C1. For every job-status sequence of exactly [k] ONGOING responses
    ([k < 20]) followed by a SUCCESS response, [pollForPdfCompletion] with
    its default [maxAttempts = 20] and [initialDelayMs = 2000] returns the
    SUCCESS status descriptor after exactly [k + 1] status queries; before
    each query it waits the current delay, and the delays start at 2000 ms,
    each later one being [min (previous * 1.5, 10000)]. *)
Theorem poll_success_after_ongoing (k : nat) (w : world) :
  (k < 20)%nat ->
  (forall n, (n < k)%nat -> renders "ONGOING" (api (served w + n) query) = true) ->
  renders "SUCCESS" (api (served w + k) query) = true ->
  exists data,
    descriptor (api (served w + k) query) = Some data
    /\ pollForPdfCompletion api apiKey requestId
         default_maxAttempts default_initialDelayMs w
       = (Ok data,
          {| served := served w + S k;
             trace := (trace w ++ poll_events apiKey requestId 0 (S k))%list |})
    /\ status_queries (poll_events apiKey requestId 0 (S k)) = S k
    /\ (backoff_delay 0 == 2000)%Q
    /\ (forall i, backoff_delay (S i) == Qmin (backoff_delay i * 1.5) 10000)%Q.
Proof.
  intros Hk Hongoing Hsuccess.
  destruct (renders_inv _ _ Hsuccess) as (status & members & Hc & Hs).
  exists (JObject members). split; [|split; [|split; [|split]]].
  - unfold descriptor. now rewrite Hc.
  - unfold pollForPdfCompletion, default_maxAttempts, default_initialDelayMs.
    replace 20%nat with (k + S (19 - k))%nat by lia.
    change 2000%Q with (backoff_delay 0).
    rewrite (poll_loop_ongoing _ k _ 0%nat w Hongoing).
    rewrite poll_loop_step. cbv zeta. cbn [served]. rewrite Hc, Hs.
    change (is_string (Some (JString "SUCCESS")) "SUCCESS") with true. cbv iota.
    unfold attempted. cbn [served trace]. rewrite poll_events_snoc.
    rewrite <- app_assoc. cbn [Nat.add]. fold query.
    now replace (S (served w + k)) with (served w + S k)%nat by lia.
  - apply status_queries_poll_events.
  - reflexivity.
  - intros i. do 4 (destruct i as [|i]; [reflexivity|]). reflexivity.
Qed.

(** C2. For every job-status sequence of 20 consecutive ONGOING responses,
    [pollForPdfCompletion] with its default [maxAttempts = 20] throws the
    timed-out error after exactly 20 status queries, whatever a 21st query
    would have been answered; the message names the attempt count and the
    request id. *)
Theorem poll_times_out_after_20_ongoing (w : world) :
  (forall n, (n < 20)%nat -> renders "ONGOING" (api (served w + n) query) = true) ->
  pollForPdfCompletion api apiKey requestId default_maxAttempts default_initialDelayMs w
  = (Throw (Error ("PDF generation timed out after 20 attempts for request "
                   +:+ requestId)),
     {| served := served w + 20;
        trace := (trace w ++ poll_events apiKey requestId 0 20)%list |})
  /\ status_queries (poll_events apiKey requestId 0 20) = 20%nat.
Proof.
  intros Hongoing. split; [|apply status_queries_poll_events].
  unfold pollForPdfCompletion, default_maxAttempts, default_initialDelayMs.
  change 20%nat with (20 + 0)%nat at 2.
  change 2000%Q with (backoff_delay 0).
  rewrite (poll_loop_ongoing _ 20 0%nat 0%nat w Hongoing).
  reflexivity.
Qed.

(** C3. If the first response that is not ONGOING is FAILED, and the budget
    reaches it ([j] ONGOING responses, [j < maxAttempts]),
    [pollForPdfCompletion] throws the render-failed error naming the request
    id at that response: it has issued [j + 1] status queries and issues no
    other, however many attempts remain. *)
Theorem poll_fails_at_first_failed (maxAttempts j : nat) (w : world) :
  (j < maxAttempts)%nat ->
  (forall n, (n < j)%nat -> renders "ONGOING" (api (served w + n) query) = true) ->
  renders "FAILED" (api (served w + j) query) = true ->
  pollForPdfCompletion api apiKey requestId maxAttempts default_initialDelayMs w
  = (Throw (Error ("PDF generation failed for request " +:+ requestId)),
     {| served := served w + S j;
        trace := (trace w ++ poll_events apiKey requestId 0 (S j))%list |})
  /\ status_queries (poll_events apiKey requestId 0 (S j)) = S j.
Proof.
  intros Hj Hongoing Hfailed. split; [|apply status_queries_poll_events].
  destruct (renders_inv _ _ Hfailed) as (status & members & Hc & Hs).
  unfold pollForPdfCompletion, default_initialDelayMs.
  replace maxAttempts with (j + S (maxAttempts - S j))%nat at 2 by lia.
  change 2000%Q with (backoff_delay 0).
  rewrite (poll_loop_ongoing _ j _ 0%nat w Hongoing).
  rewrite poll_loop_step. cbv zeta. cbn [served]. rewrite Hc, Hs.
  change (is_string (Some (JString "FAILED")) "SUCCESS") with false.
  change (is_string (Some (JString "FAILED")) "FAILED") with true. cbv iota.
  unfold attempted. cbn [served trace]. rewrite poll_events_snoc.
  rewrite <- app_assoc. cbn [Nat.add]. fold query.
  now replace (S (served w + j)) with (served w + S j)%nat by lia.
Qed.

End PollTheorems.

(** ** The tool handlers *)

Section HandlerTheorems.

Context `{RT : Runtime}.
Variable api : upstream.

(** A rejected parameter stops the payload; the world is untouched. *)
Lemma add_json_param_offending key param payload w :
  offending param = true ->
  add_json_param key param payload w
  = (Throw (Error ("Invalid JSON provided for '" +:+ key +:+ "' parameter")), w).
Proof.
  unfold offending, add_json_param. destruct param as [s|]; [|discriminate].
  destruct (truthy_string s); [|discriminate].
  destruct (JSON_parse s); [discriminate | reflexivity].
Qed.

(** Any other parameter extends the payload by at most its own key. *)
Lemma add_json_param_accepted key param payload w :
  offending param = false ->
  exists added,
    add_json_param key param payload w = (Ok (payload ++ added)%list, w)
    /\ (added = []
        \/ exists s v, param = Some s /\ truthy_string s = true
                       /\ JSON_parse s = Some v /\ added = [(key, v)]).
Proof.
  unfold offending, add_json_param. destruct param as [s|].
  - destruct (truthy_string s) eqn:Hs.
    + destruct (JSON_parse s) as [v|] eqn:Hv; [|discriminate].
      intros _. exists [(key, v)]. split; [reflexivity|]. right. now exists s, v.
    + intros _. exists []. rewrite app_nil_r. now split; [|left].
  - intros _. exists []. rewrite app_nil_r. now split; [|left].
Qed.

(** An empty parameter is an absent one. *)
Lemma add_json_param_empty key payload :
  add_json_param key (Some "") payload = add_json_param key None payload.
Proof. reflexivity. Qed.

Lemma obj_get_app k (l1 l2 : list (string * json)) :
  obj_get k (l1 ++ l2) = match obj_get k l2 with
                         | Some v => Some v
                         | None => obj_get k l1
                         end.
Proof.
  induction l1 as [|[k' v'] l1 IH]; cbn [app obj_get].
  - now destruct (obj_get k l2).
  - rewrite IH. destruct (obj_get k l2); [reflexivity|].
    now destruct (obj_get k l1).
Qed.

Lemma obj_get_add_flag k key flag payload :
  String.eqb key k = false ->
  obj_get k (add_flag key flag payload) = obj_get k payload.
Proof.
  intros Hk. unfold add_flag. destruct flag; [|reflexivity].
  rewrite obj_get_app. cbn [obj_get]. now rewrite Hk.
Qed.

(** C4 (as amended). A JSON-string parameter that is not empty and that
    [JSON.parse] rejects makes the tool return an error-flagged result and
    leave the world as it found it: no upstream call.  The text names the
    first such parameter in the order [pdfParams], [metadata]; for
    [generate_pdf] every string [JSON.parse] rejects, the empty one included,
    is reported for [data]. *)
Theorem invalid_json_is_reported (s : string) (w : world) :
  JSON_parse s = None ->
  (forall args,
      hp_pdfParams args = Some s -> truthy_string s = true ->
      html_to_pdf api args w
      = (Ok (failure "Error converting HTML to PDF: Invalid JSON provided for 'pdfParams' parameter"),
         w))
  /\ (forall args,
        hp_metadata args = Some s -> truthy_string s = true ->
        offending (hp_pdfParams args) = false ->
        html_to_pdf api args w
        = (Ok (failure "Error converting HTML to PDF: Invalid JSON provided for 'metadata' parameter"),
           w))
  /\ (forall args,
        gp_data args = s ->
        generate_pdf api args w
        = (Ok (failure "Error generating PDF: Invalid JSON provided for 'data' parameter"),
           w)).
Proof.
  intros Hs. split; [|split].
  - intros args Hp Ht.
    unfold html_to_pdf, try_catch, html_to_pdf_body, html_to_pdf_payload.
    rewrite !bind_run.
    rewrite (add_json_param_offending "pdfParams" (hp_pdfParams args)); [reflexivity|].
    unfold offending. now rewrite Hp, Ht, Hs.
  - intros args Hm Ht Hp.
    unfold html_to_pdf, try_catch, html_to_pdf_body, html_to_pdf_payload.
    rewrite !bind_run.
    destruct (add_json_param_accepted "pdfParams" _ [("html", JString (hp_html args))] w Hp)
      as (added & -> & _).
    cbv beta iota. rewrite bind_run.
    rewrite (add_json_param_offending "metadata" (hp_metadata args)); [reflexivity|].
    unfold offending. now rewrite Hm, Ht, Hs.
  - intros args Hd.
    unfold generate_pdf, try_catch, generate_pdf_body, generate_pdf_payload.
    rewrite bind_run, Hd, Hs. reflexivity.
Qed.

(** The payload [html_to_pdf] builds when neither JSON-string parameter is
    rejected. *)
Lemma html_to_pdf_payload_accepted args w :
  offending (hp_pdfParams args) = false ->
  offending (hp_metadata args) = false ->
  exists p m,
    html_to_pdf_payload args w
    = (Ok (JObject (add_flag "hasCover" (hp_hasCover args)
                      (add_flag "convertToImage" (hp_convertToImage args)
                         (([("html", JString (hp_html args))] ++ p) ++ m)))), w)
    /\ (p = [] \/ exists s v, hp_pdfParams args = Some s /\ truthy_string s = true
                              /\ JSON_parse s = Some v /\ p = [("pdfParams", v)])
    /\ (m = [] \/ exists s v, hp_metadata args = Some s /\ truthy_string s = true
                              /\ JSON_parse s = Some v /\ m = [("metadata", v)]).
Proof.
  intros Hp Hm. unfold html_to_pdf_payload. rewrite !bind_run.
  destruct (add_json_param_accepted "pdfParams" _ [("html", JString (hp_html args))] w Hp)
    as (p & -> & Hp').
  cbv beta iota. rewrite bind_run.
  destruct (add_json_param_accepted "metadata" _
              ([("html", JString (hp_html args))] ++ p)%list w Hm)
    as (m & -> & Hm').
  exists p, m. now split.
Qed.

(** What [html_to_pdf] does once its payload is built: one [POST], then the
    branch on the status. *)
Lemma html_to_pdf_body_run args w payload :
  html_to_pdf_payload args w = (Ok payload, w) ->
  html_to_pdf_body api args w
  = (response <- callApi api (hp_apiKey args) "html-to-pdf/sync" POST (Some payload) ;;
     let '(status, result) := response in
     if (status =? 200)%Z then
       details <- lift (render_details result) ;;
       ret (success (fileType (hp_convertToImage args) +:+ " Generated Successfully!" +:+ nl
                     +:+ details))
     else if (status =? 202)%Z then
       if negb (default_true (hp_waitForCompletion args)) then
         requestId <- lift (get_prop result "requestId") ;;
         ret (success (queued_text requestId))
       else
         requestId <- lift (get_prop result "requestId") ;;
         finalResult <- pollForPdfCompletion api (hp_apiKey args) (String_of requestId)
                          default_maxAttempts default_initialDelayMs ;;
         details <- lift (render_details finalResult) ;;
         ret (success (fileType (hp_convertToImage args)
                       +:+ " Generated Successfully (async)!" +:+ nl +:+ details))
     else
       throw (Error ("Unexpected response status: " +:+ Z_toString status))) w.
Proof.
  intros Hp. unfold html_to_pdf_body. rewrite bind_run, Hp. reflexivity.
Qed.

Lemma html_to_pdf_request_not_status apiKey payload :
  is_status_query (Fetch (html_to_pdf_request apiKey payload)) = false.
Proof.
  unfold is_status_query, html_to_pdf_request, api_request. cbn [req_url].
  rewrite prefix_append. reflexivity.
Qed.

(** C8. When [html_to_pdf] is called with [waitForCompletion = false] and the
    upstream answers the request the tool issues with status 202 and a body
    carrying a [requestId], the tool returns a result that is not flagged,
    whose text contains that id and names [check_pdf_status]; the one request
    it has issued is the [POST], not a status query. *)
Theorem html_to_pdf_queued_no_wait (args : html_to_pdf_args) (w : world)
    (payload : json) (reply : string) (members : list (string * json))
    (requestId : string) :
  hp_waitForCompletion args = Some false ->
  html_to_pdf_payload args w = (Ok payload, w) ->
  api (served w) (html_to_pdf_request (hp_apiKey args) payload)
    = Responds 202 (BodyText reply) ->
  JSON_parse reply = Some (JObject members) ->
  obj_get "requestId" members = Some (JString requestId) ->
  exists r,
    html_to_pdf api args w
    = (Ok r, fetched (html_to_pdf_request (hp_apiKey args) payload) w)
    /\ isError r = false
    /\ occurs requestId (text r) = true
    /\ occurs "check_pdf_status" (text r) = true
    /\ status_queries [Fetch (html_to_pdf_request (hp_apiKey args) payload)] = 0%nat.
Proof.
  intros Hwait Hpayload Hapi Hparse Hid.
  exists (success (queued_text (Some (JString requestId)))).
  split; [|split; [|split; [|split]]].
  - unfold html_to_pdf, try_catch.
    rewrite (html_to_pdf_body_run _ _ _ Hpayload), bind_run, callApi_run.
    cbv zeta. fold (html_to_pdf_request (hp_apiKey args) payload).
    rewrite Hapi. cbn [callApi_result response_ok Z.leb Z.compare Pos.compare
                        Pos.compare_cont andb negb Z.eqb Pos.eqb].
    rewrite Hparse, Hwait. cbn [default_true negb].
    change (202 =? 200)%Z with false. change (202 =? 202)%Z with true.
    cbv iota. rewrite bind_lift. cbn [get_prop]. rewrite Hid. reflexivity.
  - reflexivity.
  - cbn [text success]. unfold queued_text. cbn [String_of ToString].
    do 3 apply occurs_append_r. apply occurs_head.
  - cbn [text success]. unfold queued_text. cbn [String_of ToString].
    do 5 apply occurs_append_r.
    apply (occurs_append_r _ "Use the " ("check_pdf_status" +:+ " tool to monitor progress.")).
    apply occurs_head.
  - unfold status_queries. cbn [List.filter].
    now rewrite html_to_pdf_request_not_status.
Qed.

(** The poll loop only adds to the trace. *)
Lemma poll_loop_extends apiKey requestId maxAttempts remaining : forall delay w,
  exists events,
    trace (snd (poll_loop api apiKey requestId maxAttempts remaining delay w))
    = (trace w ++ events)%list.
Proof.
  induction remaining as [|remaining IH]; intros delay w.
  - exists []. now rewrite app_nil_r.
  - rewrite poll_loop_step. cbv zeta.
    assert (Hnow : exists events,
               trace (attempted apiKey requestId delay w) = (trace w ++ events)%list)
      by (eexists; reflexivity).
    destruct (callApi_result _) as [[status data]|t]; [|exact Hnow].
    destruct (get_prop data "renderStatus") as [renderStatus|t]; [|exact Hnow].
    destruct (is_string renderStatus "SUCCESS"); [exact Hnow|].
    destruct (is_string renderStatus "FAILED"); [exact Hnow|].
    destruct (IH (next_delay delay) (attempted apiKey requestId delay w)) as (events & ->).
    unfold attempted at 1. cbn [trace]. rewrite <- app_assoc. eexists; reflexivity.
Qed.

(** Once the payload is built the first effect of [html_to_pdf] is its
    [POST]. *)
Lemma html_to_pdf_issues args w payload :
  html_to_pdf_payload args w = (Ok payload, w) ->
  exists events,
    trace (snd (html_to_pdf api args w))
    = (trace w ++ Fetch (html_to_pdf_request (hp_apiKey args) payload) :: events)%list.
Proof.
  intros Hp. unfold html_to_pdf, try_catch.
  rewrite (html_to_pdf_body_run _ _ _ Hp), bind_run, callApi_run. cbv zeta.
  fold (html_to_pdf_request (hp_apiKey args) payload).
  set (w1 := fetched (html_to_pdf_request (hp_apiKey args) payload) w).
  assert (Hnow : forall (A : Type) (x : A), exists events,
             trace (snd (x, w1))
             = (trace w ++ Fetch (html_to_pdf_request (hp_apiKey args) payload)
                  :: events)%list)
    by (intros; exists []; reflexivity).
  destruct (callApi_result _) as [[status result]|t]; [|apply Hnow].
  destruct (status =? 200)%Z.
  { rewrite bind_lift. destruct (render_details result); apply Hnow. }
  destruct (status =? 202)%Z; [|apply Hnow].
  destruct (negb (default_true (hp_waitForCompletion args))).
  { rewrite bind_lift. destruct (get_prop result "requestId"); apply Hnow. }
  rewrite bind_lift. destruct (get_prop result "requestId") as [requestId|t]; [|apply Hnow].
  rewrite bind_run. unfold pollForPdfCompletion.
  destruct (poll_loop_extends (hp_apiKey args) (String_of requestId) default_maxAttempts
              default_maxAttempts default_initialDelayMs w1) as (events & Hev).
  destruct (poll_loop _ _ _ _ _ _ w1) as [[finalResult|t] w2]; cbn [snd] in Hev.
  - rewrite bind_lift.
    destruct (render_details finalResult); cbn [snd ret]; rewrite Hev;
      unfold w1, fetched; cbn [trace]; rewrite <- app_assoc; eexists; reflexivity.
  - cbn [snd ret]. rewrite Hev.
    unfold w1, fetched; cbn [trace]; rewrite <- app_assoc; eexists; reflexivity.
Qed.

(** C10 (as amended). An empty [pdfParams] (or [metadata]) is never reported
    as invalid JSON: [html_to_pdf] runs exactly as if the parameter had been
    left out, and when the other JSON-string parameter is not rejected the
    payload has no such member and is sent upstream. *)
Theorem empty_json_param_is_omitted (args : html_to_pdf_args) (w : world) :
  (hp_pdfParams args = Some "" ->
     html_to_pdf api args w = html_to_pdf api (without_pdfParams args) w
     /\ fst (html_to_pdf_payload args w)
        <> Throw (Error "Invalid JSON provided for 'pdfParams' parameter")
     /\ (offending (hp_metadata args) = false ->
         issued_without api "pdfParams" args w))
  /\ (hp_metadata args = Some "" ->
        html_to_pdf api args w = html_to_pdf api (without_metadata args) w
        /\ fst (html_to_pdf_payload args w)
           <> Throw (Error "Invalid JSON provided for 'metadata' parameter")
        /\ (offending (hp_pdfParams args) = false ->
            issued_without api "metadata" args w)).
Proof.
  split; intros Hempty.
  - assert (Hoff : offending (hp_pdfParams args) = false)
      by (now rewrite Hempty).
    split; [|split].
    + unfold html_to_pdf, html_to_pdf_body, html_to_pdf_payload, without_pdfParams.
      cbn [hp_apiKey hp_html hp_pdfParams hp_convertToImage hp_metadata hp_hasCover
           hp_waitForCompletion].
      now rewrite Hempty, add_json_param_empty.
    + destruct (offending (hp_metadata args)) eqn:Hm.
      * unfold html_to_pdf_payload. rewrite !bind_run.
        destruct (add_json_param_accepted "pdfParams" _
                    [("html", JString (hp_html args))] w Hoff) as (p & -> & _).
        cbv beta iota. rewrite bind_run.
        rewrite (add_json_param_offending "metadata" (hp_metadata args)) by exact Hm.
        cbn [fst]. discriminate.
      * destruct (html_to_pdf_payload_accepted args w Hoff Hm) as (p & m & -> & _).
        cbn [fst]. discriminate.
    + intros Hm.
      destruct (html_to_pdf_payload_accepted args w Hoff Hm) as (p & m & Hpay & Hp & Hmm).
      destruct (html_to_pdf_issues args w _ Hpay) as (events & Hev).
      eexists _, events. split; [exact Hpay|]. split; [|exact Hev].
      rewrite !obj_get_add_flag by reflexivity. rewrite !obj_get_app.
      destruct Hp as [->|(s & v & Hs & Ht & _)];
        [|rewrite Hempty in Hs; injection Hs as <-; discriminate].
      destruct Hmm as [->|(s & v & _ & _ & _ & ->)]; reflexivity.
  - assert (Hoff : offending (hp_metadata args) = false)
      by (now rewrite Hempty).
    split; [|split].
    + unfold html_to_pdf, html_to_pdf_body, html_to_pdf_payload, without_metadata.
      cbn [hp_apiKey hp_html hp_pdfParams hp_convertToImage hp_metadata hp_hasCover
           hp_waitForCompletion].
      now rewrite Hempty.
    + destruct (offending (hp_pdfParams args)) eqn:Hp.
      * unfold html_to_pdf_payload. rewrite !bind_run.
        rewrite (add_json_param_offending "pdfParams" (hp_pdfParams args)) by exact Hp.
        cbn [fst]. discriminate.
      * destruct (html_to_pdf_payload_accepted args w Hp Hoff) as (p & m & -> & _).
        cbn [fst]. discriminate.
    + intros Hp.
      destruct (html_to_pdf_payload_accepted args w Hp Hoff) as (p & m & Hpay & Hpp & Hm).
      destruct (html_to_pdf_issues args w _ Hpay) as (events & Hev).
      eexists _, events. split; [exact Hpay|]. split; [|exact Hev].
      rewrite !obj_get_add_flag by reflexivity. rewrite !obj_get_app.
      destruct Hm as [->|(s & v & Hs & Ht & _)];
        [|rewrite Hempty in Hs; injection Hs as <-; discriminate].
      destruct Hpp as [->|(s & v & _ & _ & _ & ->)]; reflexivity.
Qed.

(** C9. Two invocations of [list_templates] that differ only in [limit] run
    identically against the same upstream: the one request is [GET
    integration/templates] with no body and no trace of the limit, and the
    result is that of the upstream's answer. *)
Theorem list_templates_ignores_limit (apiKey : string) (limit1 limit2 : option number)
    (w : world) :
  list_templates api {| lt_apiKey := apiKey; lt_limit := limit1 |} w
  = list_templates api {| lt_apiKey := apiKey; lt_limit := limit2 |} w
  /\ list_templates api {| lt_apiKey := apiKey; lt_limit := limit1 |} w
     = (Ok (contained "Error fetching templates: "
              match callApi_result (api (served w) (list_templates_request apiKey)) with
              | Ok (_, data) => Ok (success (JSON_stringify data 2))
              | Throw t => Throw t
              end),
        fetched (list_templates_request apiKey) w)
  /\ list_templates_request apiKey
     = {| req_url := PDFNOODLE_API_BASE +:+ "integration/templates";
          req_method := GET;
          req_headers := api_headers apiKey;
          req_body := None |}.
Proof.
  split; [reflexivity|]. split; [|reflexivity].
  unfold list_templates, try_catch, list_templates_body. cbn [lt_apiKey].
  rewrite bind_run, callApi_run. cbv zeta. fold (list_templates_request apiKey).
  now destruct (callApi_result _) as [[status data]|t].
Qed.

(** C5. Each of the five handlers returns a result and never throws,
    whatever its input and whatever the upstream does: the result is the one
    its [try] block returned, or, when the block threw (a rejected [fetch], a
    response that is not 2xx, a failed or timed-out render, invalid JSON),
    the flagged text made of the tool's prefix and the error's message. *)
Theorem handlers_contain_every_error
    (a1 : list_templates_args) (a2 : get_template_variables_args)
    (a3 : check_pdf_status_args) (a4 : html_to_pdf_args) (a5 : generate_pdf_args)
    (w : world) :
  list_templates api a1 w
  = (Ok (contained "Error fetching templates: " (fst (list_templates_body api a1 w))),
     snd (list_templates_body api a1 w))
  /\ get_template_variables api a2 w
     = (Ok (contained "Error fetching template variables: "
              (fst (get_template_variables_body api a2 w))),
        snd (get_template_variables_body api a2 w))
  /\ check_pdf_status api a3 w
     = (Ok (contained "Error checking PDF status: " (fst (check_pdf_status_body api a3 w))),
        snd (check_pdf_status_body api a3 w))
  /\ html_to_pdf api a4 w
     = (Ok (contained "Error converting HTML to PDF: " (fst (html_to_pdf_body api a4 w))),
        snd (html_to_pdf_body api a4 w))
  /\ generate_pdf api a5 w
     = (Ok (contained "Error generating PDF: " (fst (generate_pdf_body api a5 w))),
        snd (generate_pdf_body api a5 w))
  /\ (forall prefix t,
        contained prefix (Throw t) = failure (prefix +:+ catch_message t)
        /\ isError (contained prefix (Throw t)) = true).
Proof.
  repeat split;
    try (unfold list_templates, get_template_variables, check_pdf_status,
           html_to_pdf, generate_pdf, try_catch;
         match goal with
         | |- context [match ?b w with _ => _ end] => now destruct (b w) as [[r|t] w']
         end).
Qed.

End HandlerTheorems.

(** ** Sessions *)

Section SessionTheorems.

Variable isInitializeRequest : js_value -> bool.

Lemma uuid_shaped_truthy id : uuid_shaped id = true -> truthy_string id = true.
Proof. destruct id; [discriminate | reflexivity]. Qed.

(** No generated id is a member of [Object.prototype]. *)
Lemma uuid_shaped_own id :
  uuid_shaped id = true -> existsb (String.eqb id) Object_prototype_keys = false.
Proof.
  intros Hid. destruct (existsb _ _) eqn:Hex; [|reflexivity].
  apply existsb_exists in Hex as (key & Hin & Heq).
  apply String.eqb_eq in Heq. subst key.
  cbn [Object_prototype_keys In] in Hin.
  repeat (destruct Hin as [<-|Hin]; [discriminate Hid|]). destruct Hin.
Qed.

(** The [POST] route never touches the registry and only ever adds a fresh
    transport to the heap. *)
Lemma post_mcp_state s req :
  transports (snd (post_mcp isInitializeRequest s req)) = transports s
  /\ exists added, heap (snd (post_mcp isInitializeRequest s req)) = (heap s ++ added)%list.
Proof.
  unfold post_mcp.
  destruct (_ && truthy_property _).
  - split; [|exists []; rewrite app_nil_r];
      now destruct (match mcp_session_id req with Some _ => _ | None => _ end).
  - destruct (_ && isInitializeRequest _).
    + split; [reflexivity|]. eexists; reflexivity.
    + split; [reflexivity|]. exists []. now rewrite app_nil_r.
Qed.

(** The routing the [POST] handler implements for every header value that is
    not the name of a member of [Object.prototype]. *)
Lemma post_mcp_routing s req :
  match mcp_session_id req with
  | Some sid =>
      truthy_string sid = true ->
      existsb (String.eqb sid) Object_prototype_keys = false ->
      post_mcp isInitializeRequest s req
      = (match transports s !! sid with
         | Some t => Reuse t
         | None => InvalidSession
         end, s)
      /\ written InvalidSession
         = Some (400%Z,
                 JObject [ ("jsonrpc", JString "2.0");
                           ("error", JObject [ ("code", JNumber "-32000");
                                               ("message", JString "Invalid session") ]);
                           ("id", JNull) ])
  | None =>
      post_mcp isInitializeRequest s req
      = if isInitializeRequest (body req)
        then (NewSession (length (heap s)), snd (new_transport s))
        else (InvalidSession, s)
  end.
Proof.
  unfold post_mcp. destruct (mcp_session_id req) as [sid|].
  - intros -> Hown. split; [|reflexivity]. unfold transports_get. rewrite Hown.
    now destruct (transports s !! sid).
  - cbn [andb negb]. now destruct (isInitializeRequest (body req)).
Qed.

Lemma registered_live_step s l s' :
  registered_live s -> step isInitializeRequest s l s' -> registered_live s'.
Proof.
  intros Hlive Hstep. destruct Hstep as [s req|s req|s t id Ht Hid|s t tr Ht].
  - destruct (post_mcp_state s req) as (Hreg & added & Hheap).
    intros id t. rewrite Hreg, Hheap. intros Hin.
    destruct (Hlive id t Hin) as (Hid & Hheap'). split; [exact Hid|].
    now apply lookup_app_l_Some.
  - exact Hlive.
  - intros id' t'. unfold onsessioninitialized. cbn [transports heap].
    destruct (decide (id = id')) as [<-|Hne].
    + rewrite lookup_insert_eq. intros [= <-]. split; [exact Hid|].
      rewrite list_lookup_alter_eq, Ht. reflexivity.
    + rewrite lookup_insert_ne by exact Hne. intros Hin.
      destruct (Hlive id' t' Hin) as (Hid' & Hheap'). split; [exact Hid'|].
      rewrite list_lookup_alter_ne; [exact Hheap'|].
      intros <-. rewrite Ht in Hheap'. discriminate.
  - intros id' t'. unfold onclose. cbn [transports heap]. rewrite Ht.
    intros Hin.
    assert (Hold : transports s !! id' = Some t').
    { destruct tr as [[id|] c]; [|exact Hin].
      destruct (truthy_string id); [|exact Hin].
      apply lookup_delete_Some in Hin. tauto. }
    destruct (Hlive id' t' Hold) as (Hid' & Hheap'). split; [exact Hid'|].
    destruct (decide (t = t')) as [<-|Hne].
    + rewrite Ht in Hheap'. injection Hheap' as ->.
      cbn in Hin. rewrite (uuid_shaped_truthy _ Hid') in Hin.
      rewrite lookup_delete_eq in Hin. discriminate.
    + rewrite list_lookup_alter_ne by exact Hne. exact Hheap'.
Qed.

Lemma reachable_registered_live s :
  reachable isInitializeRequest s -> registered_live s.
Proof.
  induction 1 as [|s l s' _ IH Hstep].
  - intros id t Hin. cbn in Hin. rewrite lookup_empty in Hin. discriminate.
  - exact (registered_live_step _ _ _ IH Hstep).
Qed.

(** C6, at the failing input.  In every state the server can reach, a
    [POST] whose [mcp-session-id] header is ["constructor"] names no
    registered session, yet the handler does not answer "Invalid session":
    the lookup finds [Object.prototype.constructor], the handler takes it for
    a transport, and the call of its [handleRequest] throws. *)
Theorem post_mcp_inherited_key (s : server) (payload : js_value) :
  reachable isInitializeRequest s ->
  transports s !! "constructor" = None
  /\ post_mcp isInitializeRequest s
       {| mcp_session_id := Some "constructor"; body := payload |}
     = (NotATransport "constructor", s)
  /\ written (NotATransport "constructor") = None.
Proof.
  intros Hreach.
  assert (Hnone : transports s !! "constructor" = None).
  { destruct (transports s !! "constructor") as [t|] eqn:Hin; [|reflexivity].
    destruct (reachable_registered_live s Hreach _ _ Hin) as (Hid & _).
    discriminate Hid. }
  split; [exact Hnone|]. split; [|reflexivity].
  unfold post_mcp, transports_get. cbn [mcp_session_id truthy_string].
  rewrite Hnone. reflexivity.
Qed.

(** C7. In every state the server can reach, an entry of [transports] maps
    its session id to one transport, which is live and carries that id as
    its [sessionId], so no transport is registered under two ids; and when a
    transport's close handler has run, no entry maps any id to it. *)
Theorem registry_has_no_stale_entry (s : server) :
  reachable isInitializeRequest s ->
  registered_live s
  /\ (forall id1 id2 t,
        transports s !! id1 = Some t -> transports s !! id2 = Some t -> id1 = id2)
  /\ (forall t tr,
        heap s !! t = Some tr ->
        forall id, transports (onclose t s) !! id <> Some t).
Proof.
  intros Hreach. pose proof (reachable_registered_live s Hreach) as Hlive.
  split; [exact Hlive|]. split.
  - intros id1 id2 t H1 H2.
    destruct (Hlive id1 t H1) as (_ & Hh1). destruct (Hlive id2 t H2) as (_ & Hh2).
    rewrite Hh1 in Hh2. now injection Hh2.
  - intros t tr Ht id Hin.
    assert (Hstep : step isInitializeRequest s (Closed t) (onclose t s))
      by (econstructor; exact Ht).
    destruct (registered_live_step _ _ _ Hlive Hstep id t Hin) as (_ & Hheap).
    unfold onclose in Hheap. cbn [heap] in Hheap.
    rewrite list_lookup_alter_eq, Ht in Hheap. discriminate.
Qed.

End SessionTheorems.

(** ** The statements at concrete inputs *)

(** Settles [forall n, n < k -> P n] for a numeral [k], one case at a time. *)
Ltac below_by_cases :=
  let n := fresh "n" in
  let Hn := fresh "Hn" in
  intros n Hn; repeat (destruct n as [|n]; [reflexivity|]); lia.

Section Instances.

Import Reference Examples.

(** Three ONGOING answers, then SUCCESS: four status queries. *)
Lemma poll_success_after_ongoing_witness :
  (3 < 20)%nat
  /\ exists data,
       pollForPdfCompletion (job 3 "SUCCESS") "key" "r1"
         default_maxAttempts default_initialDelayMs initial_world
       = (Ok data, {| served := 4; trace := poll_events "key" "r1" 0 4 |}).
Proof.
  split; [lia|].
  destruct (poll_success_after_ongoing (job 3 "SUCCESS") "key" "r1" 3 initial_world)
    as (data & _ & Hrun & _).
  - lia.
  - below_by_cases.
  - reflexivity.
  - exists data. exact Hrun.
Defined.

(** A job that never leaves ONGOING. *)
Lemma poll_times_out_after_20_ongoing_witness :
  pollForPdfCompletion (job 25 "SUCCESS") "key" "r1"
    default_maxAttempts default_initialDelayMs initial_world
  = (Throw (Error "PDF generation timed out after 20 attempts for request r1"),
     {| served := 20; trace := poll_events "key" "r1" 0 20 |}).
Proof.
  apply (poll_times_out_after_20_ongoing (job 25 "SUCCESS") "key" "r1" initial_world).
  below_by_cases.
Defined.

(** Two ONGOING answers, then FAILED, with eighteen attempts to spare. *)
Lemma poll_fails_at_first_failed_witness :
  pollForPdfCompletion (job 2 "FAILED") "key" "r1" 20 default_initialDelayMs initial_world
  = (Throw (Error "PDF generation failed for request r1"),
     {| served := 3; trace := poll_events "key" "r1" 0 3 |}).
Proof.
  apply (poll_fails_at_first_failed (job 2 "FAILED") "key" "r1" 20 2 initial_world).
  - lia.
  - below_by_cases.
  - reflexivity.
Defined.

(** C4, the claim as written fails twice.  The empty string is not JSON,
    yet [html_to_pdf] given it as [pdfParams] reports nothing and calls the
    upstream; and when [pdfParams] and [metadata] are both rejected the text
    names [pdfParams] and not [metadata]. *)
Lemma empty_pdfParams_is_not_reported :
  let run := html_to_pdf rendered (html_args (Some "") None None) initial_world in
  let both := html_to_pdf rendered (html_args (Some "{bad") (Some "[oops") None)
                initial_world in
  JSON_parse "" = None
  /\ fst run
     = Ok (success ("PDF Generated Successfully!" +:+ nl
                    +:+ "Download URL: https://x/y.pdf" +:+ nl
                    +:+ "Execution time: N/A" +:+ nl +:+ "File size: N/A"))
  /\ trace (snd run)
     = [Fetch (html_to_pdf_request "key" (JObject [("html", JString "<h1>Hello</h1>")]))]
  /\ JSON_parse "[oops" = None
  /\ exists r, fst both = Ok r /\ isError r = true
                /\ occurs "pdfParams" (text r) = true
                /\ occurs "metadata" (text r) = false.
Proof.
  repeat split.
  exists (failure "Error converting HTML to PDF: Invalid JSON provided for 'pdfParams' parameter").
  repeat split.
Qed.

Lemma invalid_json_is_reported_witness :
  html_to_pdf rendered (html_args (Some "{bad") None None) initial_world
  = (Ok (failure "Error converting HTML to PDF: Invalid JSON provided for 'pdfParams' parameter"),
     initial_world)
  /\ html_to_pdf rendered (html_args None (Some "{bad") None) initial_world
     = (Ok (failure "Error converting HTML to PDF: Invalid JSON provided for 'metadata' parameter"),
        initial_world)
  /\ generate_pdf rendered (template_args "{bad") initial_world
     = (Ok (failure "Error generating PDF: Invalid JSON provided for 'data' parameter"),
        initial_world).
Proof.
  destruct (invalid_json_is_reported rendered "{bad" initial_world) as (Hp & Hm & Hd);
    [reflexivity|].
  split; [|split].
  - apply Hp; reflexivity.
  - apply Hm; reflexivity.
  - apply Hd; reflexivity.
Defined.

(** The upstream queues the render and the caller does not wait. *)
Lemma html_to_pdf_queued_no_wait_witness :
  exists r,
    html_to_pdf queued (html_args None None (Some false)) initial_world
    = (Ok r, fetched (html_to_pdf_request "key"
                        (JObject [("html", JString "<h1>Hello</h1>")])) initial_world)
    /\ isError r = false
    /\ occurs "r1" (text r) = true
    /\ occurs "check_pdf_status" (text r) = true.
Proof.
  destruct (html_to_pdf_queued_no_wait queued (html_args None None (Some false))
              initial_world (JObject [("html", JString "<h1>Hello</h1>")])
              ("{" +:+ quoted "requestId" +:+ ":" +:+ quoted "r1" +:+ ","
               +:+ quoted "statusUrl" +:+ ":" +:+ quoted "u" +:+ ","
               +:+ quoted "message" +:+ ":" +:+ quoted "queued" +:+ "}")
              [("requestId", JString "r1"); ("statusUrl", JString "u");
               ("message", JString "queued")]
              "r1")
    as (r & Hrun & Hflag & Hid & Htool & _); try reflexivity.
  exists r. repeat split; assumption.
Defined.

(** C10, the claim as written fails: with an empty [pdfParams] and a
    [metadata] that is not JSON nothing is sent upstream. *)
Lemma empty_pdfParams_with_invalid_metadata :
  html_to_pdf rendered (html_args (Some "") (Some "{bad") None) initial_world
  = (Ok (failure "Error converting HTML to PDF: Invalid JSON provided for 'metadata' parameter"),
     initial_world)
  /\ trace initial_world = [].
Proof. split; reflexivity. Qed.

Lemma empty_json_param_is_omitted_witness :
  html_to_pdf rendered (html_args (Some "") None None) initial_world
  = html_to_pdf rendered (html_args None None None) initial_world
  /\ issued_without rendered "pdfParams" (html_args (Some "") None None) initial_world.
Proof.
  destruct (empty_json_param_is_omitted rendered (html_args (Some "") None None)
              initial_world) as (Hp & _).
  destruct (Hp eq_refl) as (Hsame & _ & Hissued).
  split; [exact Hsame | apply Hissued; reflexivity].
Defined.

(** The handlers with the network down, against an upstream that answers
    500 or [null], and on a render that fails after being queued: a flagged
    text each time. *)
Example handlers_flag_failures :
  list_templates offline {| lt_apiKey := "key"; lt_limit := None |} initial_world
  = (Ok (failure "Error fetching templates: fetch failed"),
     fetched (list_templates_request "key") initial_world)
  /\ fst (check_pdf_status offline {| cs_apiKey := "key"; cs_requestId := "r1" |}
            initial_world)
     = Ok (failure "Error checking PDF status: fetch failed")
  /\ fst (generate_pdf (fun _ _ => Responds 500 (BodyText "boom"))
            (template_args "{}") initial_world)
     = Ok (failure "Error generating PDF: PDFNoodle API Error (500): boom")
  /\ fst (html_to_pdf (fun _ _ => Responds 200 (BodyText "null"))
            (html_args None None None) initial_world)
     = Ok (failure ("Error converting HTML to PDF: "
                    +:+ "Cannot read properties of null (reading 'signedUrl')"))
  /\ fst (html_to_pdf (fun n r => if Nat.eqb n 0 then queued n r else job 2 "FAILED" n r)
            (html_args None None None) initial_world)
     = Ok (failure "Error converting HTML to PDF: PDF generation failed for request r1").
Proof. repeat split. Qed.

(** What the server state is after one initialization. *)
Lemma one_session_reachable : reachable (fun _ => true) one_session.
Proof.
  apply (reachable_step _ (snd (post_mcp (fun _ => true) empty_server
                                   {| mcp_session_id := None; body := None |}))
           (SessionInitialized 0 a_uuid)).
  - apply (reachable_step _ empty_server
             (Post {| mcp_session_id := None; body := None |}));
      constructor.
  - apply (step_initialized (fun _ => true)); reflexivity.
Defined.

Lemma post_mcp_inherited_key_witness :
  transports one_session !! "constructor" = None
  /\ post_mcp (fun _ => true) one_session
       {| mcp_session_id := Some "constructor"; body := None |}
     = (NotATransport "constructor", one_session)
  /\ written (NotATransport "constructor") = None.
Proof.
  apply (post_mcp_inherited_key (fun _ => true) one_session None one_session_reachable).
Defined.

Lemma registry_has_no_stale_entry_witness :
  registered_live one_session
  /\ forall id, transports (onclose 0 one_session) !! id <> Some 0%nat.
Proof.
  destruct (registry_has_no_stale_entry (fun _ => true) one_session one_session_reachable)
    as (Hlive & _ & Hclosed).
  split; [exact Hlive|].
  exact (Hclosed 0%nat {| sessionId := Some a_uuid; closed := false |} eq_refl).
Defined.

End Instances.

(** * Further properties *)

(** ** [callApi] *)

Section CallApiFurther.

Context `{RT : Runtime}.
Variable api : upstream.

Lemma response_ok_range status :
  response_ok status = true <-> (200 <= status <= 299)%Z.
Proof. unfold response_ok. rewrite andb_true_iff, !Z.leb_le. tauto. Qed.

(** The guard of [callApi] lets through exactly the statuses 200 to 299: its
    exception for 202 never decides anything. *)
Lemma callApi_guard status :
  negb (response_ok status) && negb (status =? 202)%Z = negb (response_ok status).
Proof.
  destruct (response_ok status) eqn:Hok; [reflexivity|]. cbn [negb andb].
  destruct (status =? 202)%Z eqn:H202; [|reflexivity].
  apply Z.eqb_eq in H202. subst. discriminate Hok.
Qed.



End CallApiFurther.

(** ** The poll loop, whatever the upstream does *)

Section PollFurther.

Context `{RT : Runtime}.
Variable api : upstream.
Variables apiKey requestId : string.

Let query := status_request apiKey requestId.

Lemma pending_inv o :
  pending o = true ->
  exists status data renderStatus,
    callApi_result o = Ok (status, data)
    /\ get_prop data "renderStatus" = Ok renderStatus
    /\ is_string renderStatus "SUCCESS" = false
    /\ is_string renderStatus "FAILED" = false.
Proof.
  unfold pending, polled_status.
  destruct (callApi_result o) as [[status data]|]; [|discriminate].
  destruct (get_prop data "renderStatus") as [renderStatus|] eqn:Hr; [|discriminate].
  intros H. apply andb_true_iff in H as [Hs Hf].
  apply negb_true_iff in Hs, Hf.
  exists status, data, renderStatus. now repeat split.
Qed.


(** [j] attempts the loop polls again on leave it [j] attempts further on. *)
Lemma poll_loop_pending maxAttempts j : forall remaining i w,
  (forall n, (n < j)%nat -> pending (api (served w + n) query) = true) ->
  poll_loop api apiKey requestId maxAttempts (j + remaining) (backoff_delay i) w
  = poll_loop api apiKey requestId maxAttempts remaining (backoff_delay (i + j))
      {| served := served w + j;
         trace := (trace w ++ poll_events apiKey requestId i j)%list |}.
Proof.
  induction j as [|j IH]; intros remaining i w Hpending.
  - cbn [poll_events Nat.add]. rewrite !Nat.add_0_r, app_nil_r. now destruct w.
  - change (S j + remaining)%nat with (S (j + remaining)).
    rewrite poll_loop_step. cbv zeta.
    destruct (pending_inv _ (Hpending 0%nat ltac:(lia)))
      as (status & data & renderStatus & Hc & Hr & Hs & Hf).
    rewrite Nat.add_0_r in Hc. fold query. rewrite Hc, Hr, Hs, Hf.
    rewrite next_delay_backoff, IH.
    + unfold attempted. cbn [served trace poll_events].
      rewrite <- app_assoc. cbn [app]. fold query.
      now replace (S (served w) + j)%nat with (served w + S j)%nat by lia;
          replace (S i + j)%nat with (i + S j)%nat by lia.
    + intros n Hn. unfold attempted. cbn [served].
      replace (S (served w) + n)%nat with (served w + S n)%nat by lia.
      apply Hpending. lia.
Qed.

(** Whatever is answered, the loop runs some rounds of the schedule and
    nothing else. *)
Lemma poll_loop_schedule maxAttempts remaining : forall i w,
  exists n,
    (Nat.min 1 remaining <= n <= remaining)%nat
    /\ snd (poll_loop api apiKey requestId maxAttempts remaining (backoff_delay i) w)
       = {| served := served w + n;
            trace := (trace w ++ poll_events apiKey requestId i n)%list |}.
Proof.
  induction remaining as [|remaining IH]; intros i w.
  - exists 0%nat. split; [cbn; lia|]. cbn [poll_loop throw snd poll_events].
    rewrite Nat.add_0_r, app_nil_r. now destruct w.
  - rewrite poll_loop_step. cbv zeta.
    assert (Hone : exists n,
               (Nat.min 1 (S remaining) <= n <= S remaining)%nat
               /\ attempted apiKey requestId (backoff_delay i) w
                  = {| served := served w + n;
                       trace := (trace w ++ poll_events apiKey requestId i n)%list |}).
    { exists 1%nat. split; [cbn; lia|]. unfold attempted. cbn [poll_events].
      now rewrite Nat.add_1_r. }
    destruct (callApi_result _) as [[status data]|t]; [|exact Hone].
    destruct (get_prop data "renderStatus") as [renderStatus|t]; [|exact Hone].
    destruct (is_string renderStatus "SUCCESS"); [exact Hone|].
    destruct (is_string renderStatus "FAILED"); [exact Hone|].
    rewrite next_delay_backoff.
    destruct (IH (S i) (attempted apiKey requestId (backoff_delay i) w)) as (n & Hn & ->).
    exists (S n). split; [cbn in *; lia|].
    unfold attempted. cbn [served trace poll_events].
    rewrite <- app_assoc. cbn [app].
    now replace (S (served w) + n)%nat with (served w + S n)%nat by lia.
Qed.

Lemma fetches_poll_events i n : fetches (poll_events apiKey requestId i n) = n.
Proof.
  unfold fetches. revert i. induction n as [|n IH]; intros i; [reflexivity|].
  cbn [poll_events List.filter length]. now rewrite IH.
Qed.


(** X3. Whatever the upstream answers, and for every [maxAttempts],
    [pollForPdfCompletion] started with the default delay performs [n] rounds
    of "sleep, then one status query" for some [n] up to [maxAttempts] (at
    least one when [maxAttempts] is not zero), with the delays of the
    back-off schedule, and does nothing else. *)
Theorem poll_follows_schedule (maxAttempts : nat) (w : world) :
  exists n,
    (Nat.min 1 maxAttempts <= n <= maxAttempts)%nat
    /\ snd (pollForPdfCompletion api apiKey requestId maxAttempts
              default_initialDelayMs w)
       = {| served := served w + n;
            trace := (trace w ++ poll_events apiKey requestId 0 n)%list |}
    /\ fetches (poll_events apiKey requestId 0 n) = n
    /\ status_queries (poll_events apiKey requestId 0 n) = n.
Proof.
  destruct (poll_loop_schedule maxAttempts maxAttempts 0%nat w) as (n & Hn & Hrun).
  exists n. split; [exact Hn|]. split; [exact Hrun|].
  split; [apply fetches_poll_events | apply status_queries_poll_events].
Qed.


(** X5. A descriptor whose [renderStatus] is neither ["SUCCESS"] nor
    ["FAILED"] (an unknown word, a number, no such member) is polled again
    like ONGOING: when every answer is such a descriptor the loop times out
    after [maxAttempts] queries. *)
Theorem poll_times_out_on_any_other_status (maxAttempts : nat) (w : world) :
  (forall n, (n < maxAttempts)%nat -> pending (api (served w + n) query) = true) ->
  pollForPdfCompletion api apiKey requestId maxAttempts default_initialDelayMs w
  = (Throw (Error ("PDF generation timed out after " +:+ nat_toString maxAttempts
                   +:+ " attempts for request " +:+ requestId)),
     {| served := served w + maxAttempts;
        trace := (trace w ++ poll_events apiKey requestId 0 maxAttempts)%list |}).
Proof.
  intros Hpending. unfold pollForPdfCompletion, default_initialDelayMs.
  replace maxAttempts with (maxAttempts + 0)%nat at 2 by lia.
  change 2000%Q with (backoff_delay 0).
  now rewrite (poll_loop_pending _ maxAttempts 0%nat 0%nat w Hpending).
Qed.

(** X6. The loop does not retry a query that fails: when attempt [j + 1]
    ends in an error (the network, a status outside 2xx, a body that is not
    JSON, a [null] body) after [j] attempts polled again, that error is
    thrown at once, after [j + 1] queries. *)
Theorem poll_aborts_on_error (maxAttempts j : nat) (w : world) (t : thrown) :
  (j < maxAttempts)%nat ->
  (forall n, (n < j)%nat -> pending (api (served w + n) query) = true) ->
  polled_status (api (served w + j) query) = Throw t ->
  pollForPdfCompletion api apiKey requestId maxAttempts default_initialDelayMs w
  = (Throw t,
     {| served := served w + S j;
        trace := (trace w ++ poll_events apiKey requestId 0 (S j))%list |}).
Proof.
  intros Hj Hpending Herr. unfold pollForPdfCompletion, default_initialDelayMs.
  replace maxAttempts with (j + S (maxAttempts - S j))%nat at 2 by lia.
  change 2000%Q with (backoff_delay 0).
  rewrite (poll_loop_pending _ j _ 0%nat w Hpending).
  rewrite poll_loop_step. cbv zeta. cbn [served]. fold query.
  assert (Hw : attempted apiKey requestId (backoff_delay (0 + j))
                 {| served := served w + j;
                    trace := (trace w ++ poll_events apiKey requestId 0 j)%list |}
               = {| served := served w + S j;
                    trace := (trace w ++ poll_events apiKey requestId 0 (S j))%list |}).
  { unfold attempted. cbn [served trace]. rewrite poll_events_snoc, <- app_assoc.
    fold query. now replace (S (served w + j)) with (served w + S j)%nat by lia. }
  rewrite Hw. revert Herr. unfold polled_status.
  destruct (callApi_result _) as [[status data]|t']; [|now intros [= ->]].
  now intros ->.
Qed.

End PollFurther.

(** ** The tool handlers, further *)

Section HandlersFurther.

Context `{RT : Runtime}.
Variable api : upstream.

Lemma callApi_result_ok status reply data :
  (200 <= status <= 299)%Z ->
  JSON_parse reply = Some data ->
  callApi_result (Responds status (BodyText reply)) = Ok (status, data).
Proof.
  intros Hs Hd. unfold callApi_result. rewrite callApi_guard.
  apply response_ok_range in Hs. now rewrite Hs, Hd.
Qed.





Lemma generate_pdf_payload_pure args w :
  snd (generate_pdf_payload args w) = w.
Proof. unfold generate_pdf_payload. now destruct (JSON_parse (gp_data args)). Qed.

(** Once [data] has parsed, [generate_pdf] is one [POST] and the branch on
    its status. *)
Lemma generate_pdf_body_run args w parsedData :
  JSON_parse (gp_data args) = Some parsedData ->
  let payload := JObject [("templateId", JString (gp_templateId args));
                          ("data", parsedData)] in
  generate_pdf_body api args w
  = match callApi_result (api (served w) (generate_pdf_request (gp_apiKey args) payload)) with
    | Throw t => (Throw t, fetched (generate_pdf_request (gp_apiKey args) payload) w)
    | Ok (status, result) =>
        (if (status =? 200)%Z then
           details <- lift (render_details result) ;;
           ret (success ("PDF Generated Successfully!" +:+ nl +:+ details))
         else if (status =? 202)%Z then
           if negb (default_true (gp_waitForCompletion args)) then
             requestId <- lift (get_prop result "requestId") ;;
             ret (success (queued_text requestId))
           else
             requestId <- lift (get_prop result "requestId") ;;
             finalResult <- pollForPdfCompletion api (gp_apiKey args) (String_of requestId)
                              default_maxAttempts default_initialDelayMs ;;
             details <- lift (render_details finalResult) ;;
             ret (success ("PDF Generated Successfully (async)!" +:+ nl +:+ details))
         else
           throw (Error ("Unexpected response status: " +:+ Z_toString status)))
          (fetched (generate_pdf_request (gp_apiKey args) payload) w)
    end.
Proof.
  intros Hd. cbv zeta. unfold generate_pdf_body, generate_pdf_payload.
  rewrite bind_run, Hd. unfold ret at 1. cbv beta iota.
  rewrite bind_run, callApi_run. cbv zeta.
  fold (generate_pdf_request (gp_apiKey args)
          (JObject [("templateId", JString (gp_templateId args)); ("data", parsedData)])).
  now destruct (callApi_result _) as [[status result]|t].
Qed.

(** The same for [html_to_pdf], once its payload is built. *)
Lemma html_to_pdf_body_answered args w payload :
  html_to_pdf_payload args w = (Ok payload, w) ->
  html_to_pdf_body api args w
  = match callApi_result (api (served w) (html_to_pdf_request (hp_apiKey args) payload)) with
    | Throw t => (Throw t, fetched (html_to_pdf_request (hp_apiKey args) payload) w)
    | Ok (status, result) =>
        (if (status =? 200)%Z then
           details <- lift (render_details result) ;;
           ret (success (fileType (hp_convertToImage args) +:+ " Generated Successfully!"
                         +:+ nl +:+ details))
         else if (status =? 202)%Z then
           if negb (default_true (hp_waitForCompletion args)) then
             requestId <- lift (get_prop result "requestId") ;;
             ret (success (queued_text requestId))
           else
             requestId <- lift (get_prop result "requestId") ;;
             finalResult <- pollForPdfCompletion api (hp_apiKey args) (String_of requestId)
                              default_maxAttempts default_initialDelayMs ;;
             details <- lift (render_details finalResult) ;;
             ret (success (fileType (hp_convertToImage args)
                           +:+ " Generated Successfully (async)!" +:+ nl +:+ details))
         else
           throw (Error ("Unexpected response status: " +:+ Z_toString status)))
          (fetched (html_to_pdf_request (hp_apiKey args) payload) w)
    end.
Proof.
  intros Hp. rewrite (html_to_pdf_body_run api _ _ _ Hp), bind_run, callApi_run.
  cbv zeta. fold (html_to_pdf_request (hp_apiKey args) payload).
  now destruct (callApi_result _) as [[status result]|t].
Qed.

(** A [catch] block that only returns leaves the world of the [try] block. *)
Lemma try_catch_ret_world (body : M tool_result) (prefix : string) w :
  snd (try_catch body (fun err => ret (failure (prefix +:+ catch_message err))) w)
  = snd (body w).
Proof. unfold try_catch. now destruct (body w) as [[r|t] w']. Qed.


(** X7. [check_pdf_status] on a render that is still ONGOING makes its one
    status query and returns at once, without sleeping and without a flag,
    a text that names the request id. *)
Theorem check_pdf_status_ongoing (args : check_pdf_status_args) (w : world) :
  renders "ONGOING"
    (api (served w) (status_request (cs_apiKey args) (cs_requestId args))) = true ->
  check_pdf_status api args w
  = (Ok (success ("PDF generation is still in progress. Request ID: "
                  +:+ cs_requestId args +:+ ". Please check again in a few seconds.")),
     fetched (status_request (cs_apiKey args) (cs_requestId args)) w).
Proof.
  intros H. destruct (renders_inv _ _ H) as (status & members & Hc & Hs).
  unfold check_pdf_status, try_catch, check_pdf_status_body.
  rewrite bind_run, callApi_run. cbv zeta.
  fold (status_request (cs_apiKey args) (cs_requestId args)).
  rewrite Hc. cbn [snd]. rewrite bind_lift, Hs. reflexivity.
Qed.

(** X8. [check_pdf_status] reports every descriptor whose [renderStatus] is
    neither ["SUCCESS"] nor ["ONGOING"] as a failed render, flagged: FAILED,
    but also an unknown word or a descriptor without the member. *)
Theorem check_pdf_status_other_status (args : check_pdf_status_args) (w : world)
    (renderStatus : js_value) :
  polled_status (api (served w) (status_request (cs_apiKey args) (cs_requestId args)))
    = Ok renderStatus ->
  is_string renderStatus "SUCCESS" = false ->
  is_string renderStatus "ONGOING" = false ->
  check_pdf_status api args w
  = (Ok (failure ("PDF generation failed. Request ID: " +:+ cs_requestId args)),
     fetched (status_request (cs_apiKey args) (cs_requestId args)) w).
Proof.
  unfold polled_status. intros Hp Hs Ho.
  unfold check_pdf_status, try_catch, check_pdf_status_body.
  rewrite bind_run, callApi_run. cbv zeta.
  fold (status_request (cs_apiKey args) (cs_requestId args)).
  destruct (callApi_result _) as [[status data]|t]; [|discriminate].
  cbn [snd]. rewrite bind_lift, Hp, Hs, Ho. reflexivity.
Qed.

(** X9. [get_template_variables] sends one [GET] to
    [integration/templates/<templateId>/variables], the id spliced in as it
    came, and returns the body printed with two spaces of indentation
    whenever [callApi] returns, whatever the 2xx status; otherwise the
    flagged message. *)
Theorem get_template_variables_run (args : get_template_variables_args) (w : world) :
  let r := template_variables_request (tv_apiKey args) (tv_templateId args) in
  get_template_variables api args w
  = (Ok match callApi_result (api (served w) r) with
        | Ok (_, data) => success (JSON_stringify data 2)
        | Throw t => failure ("Error fetching template variables: " +:+ catch_message t)
        end,
     fetched r w)
  /\ req_url r
     = PDFNOODLE_API_BASE +:+ "integration/templates/" +:+ tv_templateId args
       +:+ "/variables"
  /\ req_method r = GET /\ req_body r = None.
Proof.
  cbv zeta. split; [|repeat split].
  unfold get_template_variables, try_catch, get_template_variables_body.
  rewrite bind_run, callApi_run. cbv zeta.
  fold (template_variables_request (tv_apiKey args) (tv_templateId args)).
  now destruct (callApi_result _) as [[status data]|t].
Qed.


(** X11. [generate_pdf] answered 200 with a full descriptor returns the
    download URL, the execution time and the file size word for word. *)
Theorem generate_pdf_success_text (args : generate_pdf_args) (w : world)
    (parsedData : json) (reply : string) (members metadata : list (string * json))
    (url executionTime fileSize : string) :
  JSON_parse (gp_data args) = Some parsedData ->
  api (served w)
      (generate_pdf_request (gp_apiKey args)
         (JObject [("templateId", JString (gp_templateId args)); ("data", parsedData)]))
    = Responds 200 (BodyText reply) ->
  JSON_parse reply = Some (JObject members) ->
  obj_get "signedUrl" members = Some (JString url) ->
  obj_get "metadata" members = Some (JObject metadata) ->
  obj_get "executionTime" metadata = Some (JString executionTime) ->
  obj_get "fileSize" metadata = Some (JString fileSize) ->
  truthy_string executionTime = true ->
  truthy_string fileSize = true ->
  generate_pdf api args w
  = (Ok (success ("PDF Generated Successfully!" +:+ nl
                  +:+ "Download URL: " +:+ url +:+ nl
                  +:+ "Execution time: " +:+ executionTime +:+ nl
                  +:+ "File size: " +:+ fileSize)),
     fetched (generate_pdf_request (gp_apiKey args)
                (JObject [("templateId", JString (gp_templateId args));
                          ("data", parsedData)])) w).
Proof.
  intros Hd Hapi Hparse Hurl Hmeta Het Hfs Htet Htfs.
  unfold generate_pdf, try_catch.
  rewrite (generate_pdf_body_run _ _ _ Hd). cbv zeta. rewrite Hapi.
  rewrite (callApi_result_ok 200 reply (JObject members)) by (lia || exact Hparse).
  change (200 =? 200)%Z with true. cbv iota. rewrite bind_lift.
  unfold render_details. cbn [get_prop]. rewrite Hurl, Hmeta.
  cbn [get_prop_opt get_prop]. rewrite Het, Hfs.
  unfold or_NA. cbn [truthy String_of ToString]. rewrite Htet, Htfs. reflexivity.
Qed.

(** X12. A 200 answer is taken for a finished render whatever its body
    holds: when the body is JSON other than [null] and has no [signedUrl] and
    no [metadata] (as [{}] or [[]]), [html_to_pdf] returns, without a flag,
    a text whose download URL reads [undefined]. *)
Theorem html_to_pdf_success_without_url (args : html_to_pdf_args) (w : world)
    (payload : json) (reply : string) (data : json) :
  html_to_pdf_payload args w = (Ok payload, w) ->
  api (served w) (html_to_pdf_request (hp_apiKey args) payload)
    = Responds 200 (BodyText reply) ->
  JSON_parse reply = Some data ->
  get_prop data "signedUrl" = Ok None ->
  get_prop data "metadata" = Ok None ->
  html_to_pdf api args w
  = (Ok (success (fileType (hp_convertToImage args) +:+ " Generated Successfully!" +:+ nl
                  +:+ details_of_nothing)),
     fetched (html_to_pdf_request (hp_apiKey args) payload) w).
Proof.
  intros Hpayload Hapi Hparse Hurl Hmeta.
  unfold html_to_pdf, try_catch.
  rewrite (html_to_pdf_body_answered _ _ _ Hpayload), Hapi.
  rewrite (callApi_result_ok 200 reply data) by (lia || exact Hparse).
  change (200 =? 200)%Z with true. cbv iota. rewrite bind_lift.
  unfold render_details. rewrite Hurl, Hmeta. reflexivity.
Qed.

(** X13. A 2xx status that is neither 200 nor 202 is an error for both
    rendering tools, even with a JSON body: the result is flagged and names
    the status. *)
Theorem unexpected_status_is_flagged (status : Z) (reply : string) (data : json) :
  (200 <= status <= 299)%Z -> status <> 200%Z -> status <> 202%Z ->
  JSON_parse reply = Some data ->
  (forall args w payload,
      html_to_pdf_payload args w = (Ok payload, w) ->
      api (served w) (html_to_pdf_request (hp_apiKey args) payload)
        = Responds status (BodyText reply) ->
      html_to_pdf api args w
      = (Ok (failure ("Error converting HTML to PDF: Unexpected response status: "
                      +:+ Z_toString status)),
         fetched (html_to_pdf_request (hp_apiKey args) payload) w))
  /\ (forall args w parsedData,
        JSON_parse (gp_data args) = Some parsedData ->
        api (served w)
            (generate_pdf_request (gp_apiKey args)
               (JObject [("templateId", JString (gp_templateId args));
                         ("data", parsedData)]))
          = Responds status (BodyText reply) ->
        generate_pdf api args w
        = (Ok (failure ("Error generating PDF: Unexpected response status: "
                        +:+ Z_toString status)),
           fetched (generate_pdf_request (gp_apiKey args)
                      (JObject [("templateId", JString (gp_templateId args));
                                ("data", parsedData)])) w)).
Proof.
  intros Hrange H200 H202 Hparse.
  apply Z.eqb_neq in H200, H202. split.
  - intros args w payload Hpayload Hapi. unfold html_to_pdf, try_catch.
    rewrite (html_to_pdf_body_answered _ _ _ Hpayload), Hapi.
    rewrite (callApi_result_ok status reply data Hrange Hparse), H200, H202.
    cbn [throw catch_message Error]. unfold ret. now rewrite <- append_assoc.
  - intros args w parsedData Hd Hapi. unfold generate_pdf, try_catch.
    rewrite (generate_pdf_body_run _ _ _ Hd). cbv zeta. rewrite Hapi.
    rewrite (callApi_result_ok status reply data Hrange Hparse), H200, H202.
    cbn [throw catch_message Error]. unfold ret. now rewrite <- append_assoc.
Qed.

Lemma add_json_param_value key param payload w :
  offending param = false ->
  add_json_param key param payload w
  = (Ok (payload ++ match json_param_value param with
                    | Some v => [(key, v)]
                    | None => []
                    end)%list, w).
Proof.
  unfold offending, add_json_param, json_param_value. destruct param as [s|].
  - destruct (truthy_string s).
    + destruct (JSON_parse s); [reflexivity | discriminate].
    + now rewrite app_nil_r.
  - now rewrite app_nil_r.
Qed.

(** X14. What [html_to_pdf] sends: [html] as given and never overridden by
    another parameter; [convertToImage] and [hasCover] exactly when supplied,
    [false] included; [pdfParams] and [metadata] as parsed, and absent when
    not supplied or empty. *)
Theorem html_to_pdf_payload_members (args : html_to_pdf_args) (w : world)
    (members : list (string * json)) :
  html_to_pdf_payload args w = (Ok (JObject members), w) ->
  obj_get "html" members = Some (JString (hp_html args))
  /\ obj_get "convertToImage" members = option_map JBool (hp_convertToImage args)
  /\ obj_get "hasCover" members = option_map JBool (hp_hasCover args)
  /\ obj_get "pdfParams" members = json_param_value (hp_pdfParams args)
  /\ obj_get "metadata" members = json_param_value (hp_metadata args).
Proof.
  unfold html_to_pdf_payload. rewrite !bind_run.
  destruct (offending (hp_pdfParams args)) eqn:Hp.
  { now rewrite (add_json_param_offending "pdfParams" (hp_pdfParams args)). }
  rewrite (add_json_param_value "pdfParams" (hp_pdfParams args)) by exact Hp.
  cbv beta iota. rewrite bind_run.
  destruct (offending (hp_metadata args)) eqn:Hm.
  { now rewrite (add_json_param_offending "metadata" (hp_metadata args)). }
  rewrite (add_json_param_value "metadata" (hp_metadata args)) by exact Hm.
  cbv beta iota. unfold ret. intros [= <-].
  destruct (json_param_value (hp_pdfParams args)),
           (json_param_value (hp_metadata args)),
           (hp_convertToImage args), (hp_hasCover args);
    repeat split.
Qed.




(** X17. A 202 answer without a [requestId] is not noticed: left to wait,
    [html_to_pdf] polls [pdf/status/undefined], at least once and at most 20
    times. *)
Theorem html_to_pdf_polls_undefined (args : html_to_pdf_args) (w : world)
    (payload : json) (reply : string) (data : json) :
  default_true (hp_waitForCompletion args) = true ->
  html_to_pdf_payload args w = (Ok payload, w) ->
  api (served w) (html_to_pdf_request (hp_apiKey args) payload)
    = Responds 202 (BodyText reply) ->
  JSON_parse reply = Some data ->
  get_prop data "requestId" = Ok None ->
  exists n,
    (1 <= n <= 20)%nat
    /\ snd (html_to_pdf api args w)
       = {| served := S (served w) + n;
            trace := ((trace w ++ [Fetch (html_to_pdf_request (hp_apiKey args) payload)])
                      ++ poll_events (hp_apiKey args) "undefined" 0 n)%list |}
    /\ req_url (status_request (hp_apiKey args) "undefined")
       = PDFNOODLE_API_BASE +:+ "pdf/status/undefined".
Proof.
  intros Hwait Hpayload Hapi Hparse Hid.
  unfold html_to_pdf. rewrite try_catch_ret_world.
  rewrite (html_to_pdf_body_answered _ _ _ Hpayload), Hapi.
  rewrite (callApi_result_ok 202 reply data) by (lia || exact Hparse).
  change (202 =? 200)%Z with false. change (202 =? 202)%Z with true. cbv iota.
  rewrite Hwait. cbn [negb]. rewrite bind_lift, Hid. cbn [String_of].
  rewrite bind_run. unfold pollForPdfCompletion.
  destruct (poll_loop_schedule api (hp_apiKey args) "undefined" default_maxAttempts
              default_maxAttempts 0%nat
              (fetched (html_to_pdf_request (hp_apiKey args) payload) w))
    as (n & Hn & Hrun).
  change (backoff_delay 0) with default_initialDelayMs in Hrun.
  exists n. split; [exact Hn|]. split; [|reflexivity].
  destruct (poll_loop _ _ _ _ _ _ _) as [[finalResult|t] w2]; cbn [snd] in Hrun; subst w2.
  - rewrite bind_lift. now destruct (render_details finalResult).
  - reflexivity.
Qed.

(** X18. [generate_pdf] told not to wait and answered 202 with a
    [requestId] returns, without a flag, the text that carries the id and
    names [check_pdf_status]; it has sent its [POST] and no status query. *)
Theorem generate_pdf_queued_no_wait (args : generate_pdf_args) (w : world)
    (parsedData : json) (reply : string) (members : list (string * json))
    (requestId : string) :
  gp_waitForCompletion args = Some false ->
  JSON_parse (gp_data args) = Some parsedData ->
  api (served w)
      (generate_pdf_request (gp_apiKey args)
         (JObject [("templateId", JString (gp_templateId args)); ("data", parsedData)]))
    = Responds 202 (BodyText reply) ->
  JSON_parse reply = Some (JObject members) ->
  obj_get "requestId" members = Some (JString requestId) ->
  generate_pdf api args w
  = (Ok (success ("PDF generation queued (taking longer than 30 seconds)." +:+ nl
                  +:+ "Request ID: " +:+ requestId +:+ nl
                  +:+ "Use the check_pdf_status tool to monitor progress.")),
     fetched (generate_pdf_request (gp_apiKey args)
                (JObject [("templateId", JString (gp_templateId args));
                          ("data", parsedData)])) w)
  /\ status_queries
       [Fetch (generate_pdf_request (gp_apiKey args)
                 (JObject [("templateId", JString (gp_templateId args));
                           ("data", parsedData)]))] = 0%nat.
Proof.
  intros Hwait Hd Hapi Hparse Hid. split.
  - unfold generate_pdf, try_catch.
    rewrite (generate_pdf_body_run _ _ _ Hd). cbv zeta. rewrite Hapi.
    rewrite (callApi_result_ok 202 reply (JObject members)) by (lia || exact Hparse).
    change (202 =? 200)%Z with false. change (202 =? 202)%Z with true. cbv iota.
    rewrite Hwait. cbn [default_true negb]. rewrite bind_lift. cbn [get_prop].
    rewrite Hid. reflexivity.
  - unfold status_queries, is_status_query, generate_pdf_request, api_request.
    cbn [List.filter req_url]. rewrite prefix_append. reflexivity.
Qed.

End HandlersFurther.

(** ** Sessions, further *)

Section SessionsFurther.

Variable isInitializeRequest : js_value -> bool.

(** In a reachable state only generated ids are keys of the registry. *)
Lemma unregistered_unless_uuid s key :
  reachable isInitializeRequest s -> uuid_shaped key = false ->
  transports s !! key = None.
Proof.
  intros Hreach Hkey. destruct (transports s !! key) as [t|] eqn:Hin; [|reflexivity].
  destruct (reachable_registered_live isInitializeRequest s Hreach _ _ Hin) as (Hid & _).
  congruence.
Qed.

Lemma prototype_key_not_uuid key :
  In key Object_prototype_keys -> uuid_shaped key = false.
Proof.
  cbn [Object_prototype_keys In]. intros Hin.
  repeat (destruct Hin as [<-|Hin]; [reflexivity|]). destruct Hin.
Qed.

(** X19. Registration, lookup and close go round: once the SDK has reported
    the session id of a transport, every [POST], [GET] and [DELETE] carrying
    that id reaches that transport, whatever the body, an initialization
    request included; once the transport has closed, the same requests are
    answered "Invalid session". *)
Theorem session_round_trip (s s' : server) (t : nat) (id : string) (payload : js_value) :
  step isInitializeRequest s (SessionInitialized t id) s' ->
  let req := {| mcp_session_id := Some id; body := payload |} in
  post_mcp isInitializeRequest s' req = (Reuse t, s')
  /\ lookup_mcp s' req = Reuse t
  /\ post_mcp isInitializeRequest (onclose t s') req = (InvalidSession, onclose t s')
  /\ lookup_mcp (onclose t s') req = InvalidSession.
Proof.
  intros Hstep. inversion Hstep as [| |s0 t0 id0 Ht Hid|]; subst. cbv zeta.
  pose proof (uuid_shaped_truthy _ Hid) as Htruthy.
  pose proof (uuid_shaped_own _ Hid) as Hown.
  assert (Hreg : transports (onsessioninitialized t id s) !! id = Some t)
    by (unfold onsessioninitialized; cbn [transports]; apply lookup_insert_eq).
  assert (Hgone : transports (onclose t (onsessioninitialized t id s)) !! id = None).
  { unfold onclose, onsessioninitialized. cbn [transports heap].
    rewrite list_lookup_alter_eq, Ht. cbn. rewrite Htruthy. apply lookup_delete_eq. }
  repeat split.
  - unfold post_mcp, transports_get. cbn [mcp_session_id]. now rewrite Htruthy, Hreg.
  - unfold lookup_mcp, transports_get. cbn [mcp_session_id]. now rewrite Hreg.
  - unfold post_mcp, transports_get. cbn [mcp_session_id].
    now rewrite Htruthy, Hgone, Hown.
  - unfold lookup_mcp, transports_get. cbn [mcp_session_id]. now rewrite Hgone, Hown.
Qed.

(** X20. A request without a session id, or with an empty one, never
    reaches a transport: [GET] and [DELETE] answer "Invalid session", and so
    does [POST] unless the body is an initialization request. *)
Theorem missing_session_id_is_rejected (s : server) (req : http_request) :
  reachable isInitializeRequest s ->
  mcp_session_id req = None \/ mcp_session_id req = Some "" ->
  lookup_mcp s req = InvalidSession
  /\ post_mcp isInitializeRequest s req
     = if isInitializeRequest (body req)
       then (NewSession (length (heap s)), snd (new_transport s))
       else (InvalidSession, s).
Proof.
  intros Hreach Hid. split.
  - unfold lookup_mcp, transports_get.
    destruct Hid as [-> | ->];
      now rewrite (unregistered_unless_uuid s _ Hreach) by reflexivity.
  - unfold post_mcp.
    destruct Hid as [-> | ->]; cbn [truthy_string andb negb];
      now destruct (isInitializeRequest (body req)).
Qed.

(** X21. The transport a [POST] creates for an initialization request is
    new and not yet routable: it has no session id, the registry is
    unchanged, and no id maps to it until the SDK reports one. *)
Theorem new_transport_is_not_registered (s : server) (req : http_request) :
  reachable isInitializeRequest s ->
  mcp_session_id req = None ->
  isInitializeRequest (body req) = true ->
  let t := length (heap s) in
  let s' := snd (post_mcp isInitializeRequest s req) in
  fst (post_mcp isInitializeRequest s req) = NewSession t
  /\ heap s' !! t = Some {| sessionId := None; closed := false |}
  /\ (forall t', (t' < t)%nat -> heap s' !! t' = heap s !! t')
  /\ transports s' = transports s
  /\ (forall id, transports s' !! id <> Some t).
Proof.
  intros Hreach Hid Hinit. cbv zeta.
  unfold post_mcp. rewrite Hid, Hinit. cbn [andb negb new_transport fst snd heap transports].
  repeat split.
  - rewrite lookup_app_r by lia. now rewrite Nat.sub_diag.
  - intros t' Ht'. now apply lookup_app_l.
  - intros id Hin.
    destruct (reachable_registered_live isInitializeRequest s Hreach _ _ Hin) as (_ & Hheap).
    apply lookup_lt_Some in Hheap. lia.
Qed.

(** X22. In every reachable state the name of any member of
    [Object.prototype], sent as the session id, is taken for a registered
    session on all three routes: the handler reads the inherited member and
    hands it the request instead of answering "Invalid session". *)
Theorem inherited_keys_are_routed (s : server) (key : string) (payload : js_value) :
  reachable isInitializeRequest s ->
  In key Object_prototype_keys ->
  let req := {| mcp_session_id := Some key; body := payload |} in
  transports s !! key = None
  /\ post_mcp isInitializeRequest s req = (NotATransport key, s)
  /\ lookup_mcp s req = NotATransport key.
Proof.
  intros Hreach Hkey. cbv zeta.
  pose proof (unregistered_unless_uuid s key Hreach (prototype_key_not_uuid key Hkey))
    as Hnone.
  assert (Hex : existsb (String.eqb key) Object_prototype_keys = true).
  { apply existsb_exists. exists key. split; [exact Hkey | apply String.eqb_refl]. }
  assert (Htruthy : truthy_string key = true).
  { revert Hkey. cbn [Object_prototype_keys In]. intros Hin.
    repeat (destruct Hin as [<-|Hin]; [reflexivity|]). destruct Hin. }
  repeat split; [exact Hnone| |].
  - unfold post_mcp, transports_get. cbn [mcp_session_id]. now rewrite Htruthy, Hnone, Hex.
  - unfold lookup_mcp, transports_get. cbn [mcp_session_id]. now rewrite Hnone, Hex.
Qed.

End SessionsFurther.

(** ** The further properties at concrete inputs *)

Section FurtherInstances.

Import Reference Examples FurtherExamples.



(** Descriptors without a [renderStatus], three attempts allowed. *)
Lemma poll_times_out_on_any_other_status_witness :
  pollForPdfCompletion empty_object "key" "r1" 3 default_initialDelayMs initial_world
  = (Throw (Error "PDF generation timed out after 3 attempts for request r1"),
     {| served := 3; trace := poll_events "key" "r1" 0 3 |}).
Proof.
  apply (poll_times_out_on_any_other_status empty_object "key" "r1" 3 initial_world).
  intros n Hn. do 3 (destruct n as [|n]; [reflexivity|]). lia.
Defined.

(** The network drops after the first answer. *)
Lemma poll_aborts_on_error_witness :
  pollForPdfCompletion drops_after_one "key" "r1" 20 default_initialDelayMs initial_world
  = (Throw (ErrorObject TypeErrorC "fetch failed"),
     {| served := 2; trace := poll_events "key" "r1" 0 2 |}).
Proof.
  apply (poll_aborts_on_error drops_after_one "key" "r1" 20 1 initial_world).
  - lia.
  - intros n Hn. do 1 (destruct n as [|n]; [reflexivity|]). lia.
  - reflexivity.
Defined.

Lemma check_pdf_status_ongoing_witness :
  check_pdf_status (job 5 "SUCCESS") status_args initial_world
  = (Ok (success ("PDF generation is still in progress. Request ID: r1"
                  +:+ ". Please check again in a few seconds.")),
     fetched (status_request "key" "r1") initial_world).
Proof.
  apply (check_pdf_status_ongoing (job 5 "SUCCESS") status_args initial_world).
  reflexivity.
Defined.

Lemma check_pdf_status_other_status_witness :
  check_pdf_status empty_object status_args initial_world
  = (Ok (failure "PDF generation failed. Request ID: r1"),
     fetched (status_request "key" "r1") initial_world).
Proof.
  apply (check_pdf_status_other_status empty_object status_args initial_world None);
    reflexivity.
Defined.


Lemma generate_pdf_success_text_witness :
  generate_pdf rendered_in_full (template_args "{}") initial_world
  = (Ok (success ("PDF Generated Successfully!" +:+ nl
                  +:+ "Download URL: https://x/y.pdf" +:+ nl
                  +:+ "Execution time: 1.2s" +:+ nl +:+ "File size: 10KB")),
     fetched (generate_pdf_request "key"
                (JObject [("templateId", JString "invoice-001"); ("data", JObject [])]))
       initial_world).
Proof.
  apply (generate_pdf_success_text rendered_in_full (template_args "{}") initial_world
           (JObject [])
           ("{" +:+ quoted "signedUrl" +:+ ":" +:+ quoted "https://x/y.pdf" +:+ ","
            +:+ quoted "metadata" +:+ ":{"
            +:+ quoted "executionTime" +:+ ":" +:+ quoted "1.2s" +:+ ","
            +:+ quoted "fileSize" +:+ ":" +:+ quoted "10KB" +:+ "}}")
           [("signedUrl", JString "https://x/y.pdf");
            ("metadata", JObject [("executionTime", JString "1.2s");
                                  ("fileSize", JString "10KB")])]
           [("executionTime", JString "1.2s"); ("fileSize", JString "10KB")]
           "https://x/y.pdf" "1.2s" "10KB"); reflexivity.
Defined.

Lemma html_to_pdf_success_without_url_witness :
  html_to_pdf empty_object (html_args None None None) initial_world
  = (Ok (success ("PDF Generated Successfully!" +:+ nl +:+ "Download URL: undefined" +:+ nl
                  +:+ "Execution time: N/A" +:+ nl +:+ "File size: N/A")),
     fetched (html_to_pdf_request "key" (JObject [("html", JString "<h1>Hello</h1>")]))
       initial_world).
Proof.
  apply (html_to_pdf_success_without_url empty_object (html_args None None None)
           initial_world (JObject [("html", JString "<h1>Hello</h1>")]) "{}" (JObject []));
    reflexivity.
Defined.

Lemma unexpected_status_is_flagged_witness :
  html_to_pdf created (html_args None None None) initial_world
  = (Ok (failure "Error converting HTML to PDF: Unexpected response status: 201"),
     fetched (html_to_pdf_request "key" (JObject [("html", JString "<h1>Hello</h1>")]))
       initial_world)
  /\ fst (generate_pdf created (template_args "{}") initial_world)
     = Ok (failure "Error generating PDF: Unexpected response status: 201").
Proof.
  destruct (unexpected_status_is_flagged created 201 "{}" (JObject []))
    as (Hhtml & Hgenerate); [lia | lia | lia | reflexivity |].
  split.
  - apply (Hhtml (html_args None None None) initial_world
             (JObject [("html", JString "<h1>Hello</h1>")])); reflexivity.
  - rewrite (Hgenerate (template_args "{}") initial_world (JObject [])); reflexivity.
Defined.

Lemma html_to_pdf_payload_members_witness :
  let members := [ ("html", JString "<h1>Hello</h1>");
                   ("pdfParams", JObject [("format", JString "A4")]);
                   ("convertToImage", JBool false);
                   ("hasCover", JBool false) ] in
  html_to_pdf_payload full_html_args initial_world = (Ok (JObject members), initial_world)
  /\ obj_get "hasCover" members = Some (JBool false)
  /\ obj_get "metadata" members = None.
Proof.
  cbv zeta.
  assert (Hpayload : html_to_pdf_payload full_html_args initial_world
                     = (Ok (JObject [ ("html", JString "<h1>Hello</h1>");
                                      ("pdfParams", JObject [("format", JString "A4")]);
                                      ("convertToImage", JBool false);
                                      ("hasCover", JBool false) ]), initial_world))
    by reflexivity.
  split; [exact Hpayload|].
  destruct (html_to_pdf_payload_members full_html_args initial_world _ Hpayload)
    as (_ & _ & Hcover & _ & Hmeta).
  split; [exact Hcover | exact Hmeta].
Defined.

Lemma html_to_pdf_polls_undefined_witness :
  exists n,
    (1 <= n <= 20)%nat
    /\ snd (html_to_pdf queued_anonymously (html_args None None None) initial_world)
       = {| served := S n;
            trace := Fetch (html_to_pdf_request "key"
                              (JObject [("html", JString "<h1>Hello</h1>")]))
                     :: poll_events "key" "undefined" 0 n |}.
Proof.
  destruct (html_to_pdf_polls_undefined queued_anonymously (html_args None None None)
              initial_world (JObject [("html", JString "<h1>Hello</h1>")]) "{}"
              (JObject []))
    as (n & Hn & Hrun & _); try reflexivity.
  exists n. split; [exact Hn | exact Hrun].
Defined.

Lemma generate_pdf_queued_no_wait_witness :
  fst (generate_pdf queued
         {| gp_apiKey := "key"; gp_templateId := "invoice-001"; gp_data := "{}";
            gp_waitForCompletion := Some false |} initial_world)
  = Ok (success ("PDF generation queued (taking longer than 30 seconds)." +:+ nl
                 +:+ "Request ID: r1" +:+ nl
                 +:+ "Use the check_pdf_status tool to monitor progress.")).
Proof.
  destruct (generate_pdf_queued_no_wait queued
              {| gp_apiKey := "key"; gp_templateId := "invoice-001"; gp_data := "{}";
                 gp_waitForCompletion := Some false |} initial_world (JObject [])
              ("{" +:+ quoted "requestId" +:+ ":" +:+ quoted "r1" +:+ ","
               +:+ quoted "statusUrl" +:+ ":" +:+ quoted "u" +:+ ","
               +:+ quoted "message" +:+ ":" +:+ quoted "queued" +:+ "}")
              [("requestId", JString "r1"); ("statusUrl", JString "u");
               ("message", JString "queued")]
              "r1") as (Hrun & _); [reflexivity..|].
  now rewrite Hrun.
Defined.

Lemma session_round_trip_witness :
  let req := {| mcp_session_id := Some a_uuid; body := None |} in
  post_mcp (fun _ => true) one_session req = (Reuse 0, one_session)
  /\ post_mcp (fun _ => true) closed_session req = (InvalidSession, closed_session).
Proof.
  destruct (session_round_trip (fun _ => true)
              (snd (post_mcp (fun _ => true) empty_server
                      {| mcp_session_id := None; body := None |}))
              one_session 0 a_uuid None) as (Hpost & _ & Hclosed & _).
  - apply (step_initialized (fun _ => true)); reflexivity.
  - split; [exact Hpost | exact Hclosed].
Defined.

Lemma missing_session_id_is_rejected_witness :
  lookup_mcp one_session {| mcp_session_id := None; body := None |} = InvalidSession
  /\ post_mcp (fun _ => false) empty_server {| mcp_session_id := Some ""; body := None |}
     = (InvalidSession, empty_server).
Proof.
  split.
  - apply (missing_session_id_is_rejected (fun _ => true) one_session
             {| mcp_session_id := None; body := None |} one_session_reachable).
    now left.
  - apply (missing_session_id_is_rejected (fun _ => false) empty_server
             {| mcp_session_id := Some ""; body := None |}
             (reachable_start (fun _ => false))).
    now right.
Defined.

Lemma new_transport_is_not_registered_witness :
  fst (post_mcp (fun _ => true) one_session {| mcp_session_id := None; body := None |})
  = NewSession 1
  /\ forall id,
       transports (snd (post_mcp (fun _ => true) one_session
                          {| mcp_session_id := None; body := None |})) !! id
       <> Some 1%nat.
Proof.
  destruct (new_transport_is_not_registered (fun _ => true) one_session
              {| mcp_session_id := None; body := None |} one_session_reachable
              eq_refl eq_refl) as (Hroute & _ & _ & _ & Hfree).
  split; [exact Hroute | exact Hfree].
Defined.

Lemma inherited_keys_are_routed_witness :
  lookup_mcp one_session {| mcp_session_id := Some "toString"; body := None |}
  = NotATransport "toString".
Proof.
  apply (inherited_keys_are_routed (fun _ => true) one_session "toString" None
           one_session_reachable).
  cbn [Object_prototype_keys In]. tauto.
Defined.

End FurtherInstances.
